(** * Zircon system-call header [zircon/syscalls/definitions.h]

    The header is a generated list of [extern] prototypes, two per system
    call.  This development carries the header text line by line, a reader
    and a printer for the prototype syntax the header uses, and the
    structural properties of the declaration table. *)

From Stdlib Require Import List String Ascii Bool Arith NArith Lia.
From Stdlib Require Import DecimalString.
From Stdlib Require Import Sorting.Sorted.
Import ListNotations.

Local Open Scope string_scope.
Local Open Scope list_scope.

(** ** Syntax of a prototype *)

(** A type as the header writes it: an optional [const], a type name and an
    optional [*].  [const zx_handle_t*] is [CType true "zx_handle_t" true]. *)
Record ctype : Set := CType {
  ty_const : bool;
  ty_base : string;
  ty_ptr : bool
}.

(** One parameter: the tag inside [ZX_SYSCALL_PARAM_ATTR(...)] when the
    parameter carries one, its type and its name. *)
Record param : Set := Param {
  p_attr : option string;
  p_type : ctype;
  p_name : string
}.

(** A function attribute after the closing parenthesis: a bare macro name
    such as [__LEAF_FN], or a macro applied to a list of parameter positions
    such as [__NONNULL((2, 3))]. *)
Record attr : Set := Attr {
  a_name : string;
  a_args : option (list nat)
}.

(** A prototype [extern ret name(params) attrs;].  A parameter list written
    [void] is the empty list. *)
Record decl : Set := Decl {
  d_ret : ctype;
  d_name : string;
  d_params : list param;
  d_attrs : list attr
}.

(** What a line, or a run of lines, of the header can be. *)
Inductive item : Set :=
| Comment (text : string)
| Blank
| Proto (d : decl).

(** [definitions.h], lines 1 to 121. *)
Definition lines_0001_0121 : list string :=
  [ "// Copyright 2018 The Fuchsia Authors. All rights reserved.";
    "// This is a GENERATED file, see //zircon/system/host/abigen.";
    "// The license governing this file can be found in the LICENSE file.";
    EmptyString;
    "extern zx_time_t zx_clock_get(";
    "    zx_clock_t clock_id) __LEAF_FN;";
    EmptyString;
    "extern zx_time_t _zx_clock_get(";
    "    zx_clock_t clock_id) __LEAF_FN;";
    EmptyString;
    "extern zx_status_t zx_clock_get_new(";
    "    zx_clock_t clock_id,";
    "    zx_time_t* out) __NONNULL((2)) __LEAF_FN;";
    EmptyString;
    "extern zx_status_t _zx_clock_get_new(";
    "    zx_clock_t clock_id,";
    "    zx_time_t* out) __NONNULL((2)) __LEAF_FN;";
    EmptyString;
    "extern zx_time_t zx_clock_get_monotonic(";
    "    void) __LEAF_FN;";
    EmptyString;
    "extern zx_time_t _zx_clock_get_monotonic(";
    "    void) __LEAF_FN;";
    EmptyString;
    "extern zx_status_t zx_nanosleep(";
    "    zx_time_t deadline) __LEAF_FN;";
    EmptyString;
    "extern zx_status_t _zx_nanosleep(";
    "    zx_time_t deadline) __LEAF_FN;";
    EmptyString;
    "extern zx_ticks_t zx_ticks_get(";
    "    void) __LEAF_FN;";
    EmptyString;
    "extern zx_ticks_t _zx_ticks_get(";
    "    void) __LEAF_FN;";
    EmptyString;
    "extern zx_ticks_t zx_ticks_per_second(";
    "    void) __LEAF_FN __CONST;";
    EmptyString;
    "extern zx_ticks_t _zx_ticks_per_second(";
    "    void) __LEAF_FN __CONST;";
    EmptyString;
    "extern zx_time_t zx_deadline_after(";
    "    zx_duration_t nanoseconds) __LEAF_FN;";
    EmptyString;
    "extern zx_time_t _zx_deadline_after(";
    "    zx_duration_t nanoseconds) __LEAF_FN;";
    EmptyString;
    "extern zx_status_t zx_clock_adjust(";
    "    ZX_SYSCALL_PARAM_ATTR(handle_use) zx_handle_t handle,";
    "    zx_clock_t clock_id,";
    "    int64_t offset) __LEAF_FN;";
    EmptyString;
    "extern zx_status_t _zx_clock_adjust(";
    "    ZX_SYSCALL_PARAM_ATTR(handle_use) zx_handle_t handle,";
    "    zx_clock_t clock_id,";
    "    int64_t offset) __LEAF_FN;";
    EmptyString;
    "extern uint32_t zx_system_get_dcache_line_size(";
    "    void) __LEAF_FN __CONST;";
    EmptyString;
    "extern uint32_t _zx_system_get_dcache_line_size(";
    "    void) __LEAF_FN __CONST;";
    EmptyString;
    "extern uint32_t zx_system_get_num_cpus(";
    "    void) __LEAF_FN __CONST;";
    EmptyString;
    "extern uint32_t _zx_system_get_num_cpus(";
    "    void) __LEAF_FN __CONST;";
    EmptyString;
    "extern zx_status_t zx_system_get_version(";
    "    char* version,";
    "    size_t version_size) __LEAF_FN;";
    EmptyString;
    "extern zx_status_t _zx_system_get_version(";
    "    char* version,";
    "    size_t version_size) __LEAF_FN;";
    EmptyString;
    "extern uint64_t zx_system_get_physmem(";
    "    void) __LEAF_FN;";
    EmptyString;
    "extern uint64_t _zx_system_get_physmem(";
    "    void) __LEAF_FN;";
    EmptyString;
    "extern zx_status_t zx_system_get_features(";
    "    uint32_t kind,";
    "    ZX_SYSCALL_PARAM_ATTR(features) uint32_t* features) __NONNULL((2)) __LEAF_FN;";
    EmptyString;
    "extern zx_status_t _zx_system_get_features(";
    "    uint32_t kind,";
    "    ZX_SYSCALL_PARAM_ATTR(features) uint32_t* features) __NONNULL((2)) __LEAF_FN;";
    EmptyString;
    "extern zx_status_t zx_cache_flush(";
    "    const void* addr,";
    "    size_t size,";
    "    uint32_t options) __LEAF_FN;";
    EmptyString;
    "extern zx_status_t _zx_cache_flush(";
    "    const void* addr,";
    "    size_t size,";
    "    uint32_t options) __LEAF_FN;";
    EmptyString;
    "extern zx_status_t zx_handle_close(";
    "    ZX_SYSCALL_PARAM_ATTR(handle_release_always) zx_handle_t handle) __LEAF_FN;";
    EmptyString;
    "extern zx_status_t _zx_handle_close(";
    "    ZX_SYSCALL_PARAM_ATTR(handle_release_always) zx_handle_t handle) __LEAF_FN;";
    EmptyString;
    "extern zx_status_t zx_handle_close_many(";
    "    const zx_handle_t* handles,";
    "    size_t num_handles) __LEAF_FN;";
    EmptyString;
    "extern zx_status_t _zx_handle_close_many(";
    "    const zx_handle_t* handles,";
    "    size_t num_handles) __LEAF_FN;";
    EmptyString;
    "extern zx_status_t zx_handle_duplicate(";
    "    ZX_SYSCALL_PARAM_ATTR(handle_use) zx_handle_t handle,";
    "    zx_rights_t rights,";
    "    ZX_SYSCALL_PARAM_ATTR(handle_acquire) zx_handle_t* out) __NONNULL((3)) __LEAF_FN;";
    EmptyString ].

(** [definitions.h], lines 122 to 244. *)
Definition lines_0122_0244 : list string :=
  [ "extern zx_status_t _zx_handle_duplicate(";
    "    ZX_SYSCALL_PARAM_ATTR(handle_use) zx_handle_t handle,";
    "    zx_rights_t rights,";
    "    ZX_SYSCALL_PARAM_ATTR(handle_acquire) zx_handle_t* out) __NONNULL((3)) __LEAF_FN;";
    EmptyString;
    "extern zx_status_t zx_handle_replace(";
    "    ZX_SYSCALL_PARAM_ATTR(handle_release_always) zx_handle_t handle,";
    "    zx_rights_t rights,";
    "    ZX_SYSCALL_PARAM_ATTR(handle_acquire) zx_handle_t* out) __NONNULL((3)) __LEAF_FN;";
    EmptyString;
    "extern zx_status_t _zx_handle_replace(";
    "    ZX_SYSCALL_PARAM_ATTR(handle_release_always) zx_handle_t handle,";
    "    zx_rights_t rights,";
    "    ZX_SYSCALL_PARAM_ATTR(handle_acquire) zx_handle_t* out) __NONNULL((3)) __LEAF_FN;";
    EmptyString;
    "extern zx_status_t zx_object_wait_one(";
    "    ZX_SYSCALL_PARAM_ATTR(handle_use) zx_handle_t handle,";
    "    zx_signals_t signals,";
    "    zx_time_t deadline,";
    "    zx_signals_t* observed) __LEAF_FN;";
    EmptyString;
    "extern zx_status_t _zx_object_wait_one(";
    "    ZX_SYSCALL_PARAM_ATTR(handle_use) zx_handle_t handle,";
    "    zx_signals_t signals,";
    "    zx_time_t deadline,";
    "    zx_signals_t* observed) __LEAF_FN;";
    EmptyString;
    "extern zx_status_t zx_object_wait_many(";
    "    zx_wait_item_t* items,";
    "    size_t count,";
    "    zx_time_t deadline) __LEAF_FN;";
    EmptyString;
    "extern zx_status_t _zx_object_wait_many(";
    "    zx_wait_item_t* items,";
    "    size_t count,";
    "    zx_time_t deadline) __LEAF_FN;";
    EmptyString;
    "extern zx_status_t zx_object_wait_async(";
    "    ZX_SYSCALL_PARAM_ATTR(handle_use) zx_handle_t handle,";
    "    ZX_SYSCALL_PARAM_ATTR(handle_use) zx_handle_t port,";
    "    uint64_t key,";
    "    zx_signals_t signals,";
    "    uint32_t options) __LEAF_FN;";
    EmptyString;
    "extern zx_status_t _zx_object_wait_async(";
    "    ZX_SYSCALL_PARAM_ATTR(handle_use) zx_handle_t handle,";
    "    ZX_SYSCALL_PARAM_ATTR(handle_use) zx_handle_t port,";
    "    uint64_t key,";
    "    zx_signals_t signals,";
    "    uint32_t options) __LEAF_FN;";
    EmptyString;
    "extern zx_status_t zx_object_signal(";
    "    ZX_SYSCALL_PARAM_ATTR(handle_use) zx_handle_t handle,";
    "    uint32_t clear_mask,";
    "    uint32_t set_mask) __LEAF_FN;";
    EmptyString;
    "extern zx_status_t _zx_object_signal(";
    "    ZX_SYSCALL_PARAM_ATTR(handle_use) zx_handle_t handle,";
    "    uint32_t clear_mask,";
    "    uint32_t set_mask) __LEAF_FN;";
    EmptyString;
    "extern zx_status_t zx_object_signal_peer(";
    "    ZX_SYSCALL_PARAM_ATTR(handle_use) zx_handle_t handle,";
    "    uint32_t clear_mask,";
    "    uint32_t set_mask) __LEAF_FN;";
    EmptyString;
    "extern zx_status_t _zx_object_signal_peer(";
    "    ZX_SYSCALL_PARAM_ATTR(handle_use) zx_handle_t handle,";
    "    uint32_t clear_mask,";
    "    uint32_t set_mask) __LEAF_FN;";
    EmptyString;
    "extern zx_status_t zx_object_get_property(";
    "    ZX_SYSCALL_PARAM_ATTR(handle_use) zx_handle_t handle,";
    "    uint32_t property,";
    "    void* value,";
    "    size_t value_size) __LEAF_FN;";
    EmptyString;
    "extern zx_status_t _zx_object_get_property(";
    "    ZX_SYSCALL_PARAM_ATTR(handle_use) zx_handle_t handle,";
    "    uint32_t property,";
    "    void* value,";
    "    size_t value_size) __LEAF_FN;";
    EmptyString;
    "extern zx_status_t zx_object_set_property(";
    "    ZX_SYSCALL_PARAM_ATTR(handle_use) zx_handle_t handle,";
    "    uint32_t property,";
    "    const void* value,";
    "    size_t value_size) __LEAF_FN;";
    EmptyString;
    "extern zx_status_t _zx_object_set_property(";
    "    ZX_SYSCALL_PARAM_ATTR(handle_use) zx_handle_t handle,";
    "    uint32_t property,";
    "    const void* value,";
    "    size_t value_size) __LEAF_FN;";
    EmptyString;
    "extern zx_status_t zx_object_set_cookie(";
    "    ZX_SYSCALL_PARAM_ATTR(handle_use) zx_handle_t handle,";
    "    ZX_SYSCALL_PARAM_ATTR(handle_use) zx_handle_t scope,";
    "    uint64_t cookie) __LEAF_FN;";
    EmptyString;
    "extern zx_status_t _zx_object_set_cookie(";
    "    ZX_SYSCALL_PARAM_ATTR(handle_use) zx_handle_t handle,";
    "    ZX_SYSCALL_PARAM_ATTR(handle_use) zx_handle_t scope,";
    "    uint64_t cookie) __LEAF_FN;";
    EmptyString;
    "extern zx_status_t zx_object_get_cookie(";
    "    ZX_SYSCALL_PARAM_ATTR(handle_use) zx_handle_t handle,";
    "    ZX_SYSCALL_PARAM_ATTR(handle_use) zx_handle_t scope,";
    "    uint64_t* cookie) __NONNULL((3)) __LEAF_FN;";
    EmptyString;
    "extern zx_status_t _zx_object_get_cookie(";
    "    ZX_SYSCALL_PARAM_ATTR(handle_use) zx_handle_t handle,";
    "    ZX_SYSCALL_PARAM_ATTR(handle_use) zx_handle_t scope,";
    "    uint64_t* cookie) __NONNULL((3)) __LEAF_FN;";
    EmptyString;
    "extern zx_status_t zx_object_get_info(";
    "    ZX_SYSCALL_PARAM_ATTR(handle_use) zx_handle_t handle,";
    "    uint32_t topic,";
    "    void* buffer,";
    "    size_t buffer_size,";
    "    size_t* actual_count,";
    "    size_t* avail_count) __LEAF_FN;";
    EmptyString ].

(** [definitions.h], lines 245 to 366. *)
Definition lines_0245_0366 : list string :=
  [ "extern zx_status_t _zx_object_get_info(";
    "    ZX_SYSCALL_PARAM_ATTR(handle_use) zx_handle_t handle,";
    "    uint32_t topic,";
    "    void* buffer,";
    "    size_t buffer_size,";
    "    size_t* actual_count,";
    "    size_t* avail_count) __LEAF_FN;";
    EmptyString;
    "extern zx_status_t zx_object_get_child(";
    "    ZX_SYSCALL_PARAM_ATTR(handle_use) zx_handle_t handle,";
    "    uint64_t koid,";
    "    zx_rights_t rights,";
    "    zx_handle_t* out) __NONNULL((4)) __LEAF_FN;";
    EmptyString;
    "extern zx_status_t _zx_object_get_child(";
    "    ZX_SYSCALL_PARAM_ATTR(handle_use) zx_handle_t handle,";
    "    uint64_t koid,";
    "    zx_rights_t rights,";
    "    zx_handle_t* out) __NONNULL((4)) __LEAF_FN;";
    EmptyString;
    "extern zx_status_t zx_object_set_profile(";
    "    ZX_SYSCALL_PARAM_ATTR(handle_use) zx_handle_t handle,";
    "    ZX_SYSCALL_PARAM_ATTR(handle_use) zx_handle_t profile,";
    "    uint32_t options) __LEAF_FN;";
    EmptyString;
    "extern zx_status_t _zx_object_set_profile(";
    "    ZX_SYSCALL_PARAM_ATTR(handle_use) zx_handle_t handle,";
    "    ZX_SYSCALL_PARAM_ATTR(handle_use) zx_handle_t profile,";
    "    uint32_t options) __LEAF_FN;";
    EmptyString;
    "extern zx_status_t zx_channel_create(";
    "    uint32_t options,";
    "    ZX_SYSCALL_PARAM_ATTR(handle_acquire) zx_handle_t* out0,";
    "    ZX_SYSCALL_PARAM_ATTR(handle_acquire) zx_handle_t* out1) __NONNULL((2, 3)) __LEAF_FN;";
    EmptyString;
    "extern zx_status_t _zx_channel_create(";
    "    uint32_t options,";
    "    ZX_SYSCALL_PARAM_ATTR(handle_acquire) zx_handle_t* out0,";
    "    ZX_SYSCALL_PARAM_ATTR(handle_acquire) zx_handle_t* out1) __NONNULL((2, 3)) __LEAF_FN;";
    EmptyString;
    "extern zx_status_t zx_channel_read(";
    "    ZX_SYSCALL_PARAM_ATTR(handle_use) zx_handle_t handle,";
    "    uint32_t options,";
    "    void* bytes,";
    "    zx_handle_t* handles,";
    "    uint32_t num_bytes,";
    "    uint32_t num_handles,";
    "    uint32_t* actual_bytes,";
    "    uint32_t* actual_handles) __LEAF_FN;";
    EmptyString;
    "extern zx_status_t _zx_channel_read(";
    "    ZX_SYSCALL_PARAM_ATTR(handle_use) zx_handle_t handle,";
    "    uint32_t options,";
    "    void* bytes,";
    "    zx_handle_t* handles,";
    "    uint32_t num_bytes,";
    "    uint32_t num_handles,";
    "    uint32_t* actual_bytes,";
    "    uint32_t* actual_handles) __LEAF_FN;";
    EmptyString;
    "extern zx_status_t zx_channel_read_etc(";
    "    ZX_SYSCALL_PARAM_ATTR(handle_use) zx_handle_t handle,";
    "    uint32_t options,";
    "    void* bytes,";
    "    zx_handle_info_t* handles,";
    "    uint32_t num_bytes,";
    "    uint32_t num_handles,";
    "    uint32_t* actual_bytes,";
    "    uint32_t* actual_handles) __LEAF_FN;";
    EmptyString;
    "extern zx_status_t _zx_channel_read_etc(";
    "    ZX_SYSCALL_PARAM_ATTR(handle_use) zx_handle_t handle,";
    "    uint32_t options,";
    "    void* bytes,";
    "    zx_handle_info_t* handles,";
    "    uint32_t num_bytes,";
    "    uint32_t num_handles,";
    "    uint32_t* actual_bytes,";
    "    uint32_t* actual_handles) __LEAF_FN;";
    EmptyString;
    "extern zx_status_t zx_channel_write(";
    "    ZX_SYSCALL_PARAM_ATTR(handle_use) zx_handle_t handle,";
    "    uint32_t options,";
    "    const void* bytes,";
    "    uint32_t num_bytes,";
    "    const zx_handle_t* handles,";
    "    uint32_t num_handles) __LEAF_FN;";
    EmptyString;
    "extern zx_status_t _zx_channel_write(";
    "    ZX_SYSCALL_PARAM_ATTR(handle_use) zx_handle_t handle,";
    "    uint32_t options,";
    "    const void* bytes,";
    "    uint32_t num_bytes,";
    "    const zx_handle_t* handles,";
    "    uint32_t num_handles) __LEAF_FN;";
    EmptyString;
    "extern zx_status_t zx_channel_call(";
    "    ZX_SYSCALL_PARAM_ATTR(handle_use) zx_handle_t handle,";
    "    uint32_t options,";
    "    zx_time_t deadline,";
    "    const zx_channel_call_args_t* args,";
    "    uint32_t* actual_bytes,";
    "    uint32_t* actual_handles) __NONNULL((5, 6)) __LEAF_FN;";
    EmptyString;
    "extern zx_status_t _zx_channel_call(";
    "    ZX_SYSCALL_PARAM_ATTR(handle_use) zx_handle_t handle,";
    "    uint32_t options,";
    "    zx_time_t deadline,";
    "    const zx_channel_call_args_t* args,";
    "    uint32_t* actual_bytes,";
    "    uint32_t* actual_handles) __NONNULL((5, 6)) __LEAF_FN;";
    EmptyString;
    "extern zx_status_t zx_socket_create(";
    "    uint32_t options,";
    "    ZX_SYSCALL_PARAM_ATTR(handle_acquire) zx_handle_t* out0,";
    "    ZX_SYSCALL_PARAM_ATTR(handle_acquire) zx_handle_t* out1) __NONNULL((2, 3)) __LEAF_FN;";
    EmptyString;
    "extern zx_status_t _zx_socket_create(";
    "    uint32_t options,";
    "    ZX_SYSCALL_PARAM_ATTR(handle_acquire) zx_handle_t* out0,";
    "    ZX_SYSCALL_PARAM_ATTR(handle_acquire) zx_handle_t* out1) __NONNULL((2, 3)) __LEAF_FN;";
    EmptyString ].

(** [definitions.h], lines 367 to 488. *)
Definition lines_0367_0488 : list string :=
  [ "extern zx_status_t zx_socket_write(";
    "    ZX_SYSCALL_PARAM_ATTR(handle_use) zx_handle_t handle,";
    "    uint32_t options,";
    "    const void* buffer,";
    "    size_t buffer_size,";
    "    size_t* actual) __LEAF_FN;";
    EmptyString;
    "extern zx_status_t _zx_socket_write(";
    "    ZX_SYSCALL_PARAM_ATTR(handle_use) zx_handle_t handle,";
    "    uint32_t options,";
    "    const void* buffer,";
    "    size_t buffer_size,";
    "    size_t* actual) __LEAF_FN;";
    EmptyString;
    "extern zx_status_t zx_socket_read(";
    "    ZX_SYSCALL_PARAM_ATTR(handle_use) zx_handle_t handle,";
    "    uint32_t options,";
    "    void* buffer,";
    "    size_t buffer_size,";
    "    size_t* actual) __LEAF_FN;";
    EmptyString;
    "extern zx_status_t _zx_socket_read(";
    "    ZX_SYSCALL_PARAM_ATTR(handle_use) zx_handle_t handle,";
    "    uint32_t options,";
    "    void* buffer,";
    "    size_t buffer_size,";
    "    size_t* actual) __LEAF_FN;";
    EmptyString;
    "extern zx_status_t zx_socket_share(";
    "    ZX_SYSCALL_PARAM_ATTR(handle_use) zx_handle_t handle,";
    "    ZX_SYSCALL_PARAM_ATTR(handle_use) zx_handle_t socket_to_share) __LEAF_FN;";
    EmptyString;
    "extern zx_status_t _zx_socket_share(";
    "    ZX_SYSCALL_PARAM_ATTR(handle_use) zx_handle_t handle,";
    "    ZX_SYSCALL_PARAM_ATTR(handle_use) zx_handle_t socket_to_share) __LEAF_FN;";
    EmptyString;
    "extern zx_status_t zx_socket_accept(";
    "    ZX_SYSCALL_PARAM_ATTR(handle_use) zx_handle_t handle,";
    "    ZX_SYSCALL_PARAM_ATTR(handle_acquire) zx_handle_t* out_socket) __NONNULL((2)) __LEAF_FN;";
    EmptyString;
    "extern zx_status_t _zx_socket_accept(";
    "    ZX_SYSCALL_PARAM_ATTR(handle_use) zx_handle_t handle,";
    "    ZX_SYSCALL_PARAM_ATTR(handle_acquire) zx_handle_t* out_socket) __NONNULL((2)) __LEAF_FN;";
    EmptyString;
    "extern zx_status_t zx_socket_shutdown(";
    "    ZX_SYSCALL_PARAM_ATTR(handle_use) zx_handle_t handle,";
    "    uint32_t options) __LEAF_FN;";
    EmptyString;
    "extern zx_status_t _zx_socket_shutdown(";
    "    ZX_SYSCALL_PARAM_ATTR(handle_use) zx_handle_t handle,";
    "    uint32_t options) __LEAF_FN;";
    EmptyString;
    "extern void zx_thread_exit(";
    "    void) __LEAF_FN __NO_RETURN;";
    EmptyString;
    "extern void _zx_thread_exit(";
    "    void) __LEAF_FN __NO_RETURN;";
    EmptyString;
    "extern zx_status_t zx_thread_create(";
    "    ZX_SYSCALL_PARAM_ATTR(handle_use) zx_handle_t process,";
    "    const char* name,";
    "    size_t name_size,";
    "    uint32_t options,";
    "    ZX_SYSCALL_PARAM_ATTR(handle_acquire) zx_handle_t* out) __NONNULL((5)) __LEAF_FN;";
    EmptyString;
    "extern zx_status_t _zx_thread_create(";
    "    ZX_SYSCALL_PARAM_ATTR(handle_use) zx_handle_t process,";
    "    const char* name,";
    "    size_t name_size,";
    "    uint32_t options,";
    "    ZX_SYSCALL_PARAM_ATTR(handle_acquire) zx_handle_t* out) __NONNULL((5)) __LEAF_FN;";
    EmptyString;
    "extern zx_status_t zx_thread_start(";
    "    ZX_SYSCALL_PARAM_ATTR(handle_use) zx_handle_t handle,";
    "    zx_vaddr_t thread_entry,";
    "    zx_vaddr_t stack,";
    "    uintptr_t arg1,";
    "    uintptr_t arg2) __LEAF_FN;";
    EmptyString;
    "extern zx_status_t _zx_thread_start(";
    "    ZX_SYSCALL_PARAM_ATTR(handle_use) zx_handle_t handle,";
    "    zx_vaddr_t thread_entry,";
    "    zx_vaddr_t stack,";
    "    uintptr_t arg1,";
    "    uintptr_t arg2) __LEAF_FN;";
    EmptyString;
    "extern zx_status_t zx_thread_read_state(";
    "    ZX_SYSCALL_PARAM_ATTR(handle_use) zx_handle_t handle,";
    "    uint32_t kind,";
    "    void* buffer,";
    "    size_t buffer_size) __LEAF_FN;";
    EmptyString;
    "extern zx_status_t _zx_thread_read_state(";
    "    ZX_SYSCALL_PARAM_ATTR(handle_use) zx_handle_t handle,";
    "    uint32_t kind,";
    "    void* buffer,";
    "    size_t buffer_size) __LEAF_FN;";
    EmptyString;
    "extern zx_status_t zx_thread_write_state(";
    "    ZX_SYSCALL_PARAM_ATTR(handle_use) zx_handle_t handle,";
    "    uint32_t kind,";
    "    const void* buffer,";
    "    size_t buffer_size) __LEAF_FN;";
    EmptyString;
    "extern zx_status_t _zx_thread_write_state(";
    "    ZX_SYSCALL_PARAM_ATTR(handle_use) zx_handle_t handle,";
    "    uint32_t kind,";
    "    const void* buffer,";
    "    size_t buffer_size) __LEAF_FN;";
    EmptyString;
    "extern zx_status_t zx_thread_set_priority(";
    "    int32_t prio) __LEAF_FN;";
    EmptyString;
    "extern zx_status_t _zx_thread_set_priority(";
    "    int32_t prio) __LEAF_FN;";
    EmptyString;
    "extern void zx_process_exit(";
    "    int64_t retcode) __LEAF_FN __NO_RETURN;";
    EmptyString;
    "extern void _zx_process_exit(";
    "    int64_t retcode) __LEAF_FN __NO_RETURN;";
    EmptyString ].

(** [definitions.h], lines 489 to 610. *)
Definition lines_0489_0610 : list string :=
  [ "extern zx_status_t zx_process_create(";
    "    ZX_SYSCALL_PARAM_ATTR(handle_use) zx_handle_t job,";
    "    const char* name,";
    "    size_t name_size,";
    "    uint32_t options,";
    "    ZX_SYSCALL_PARAM_ATTR(handle_acquire) zx_handle_t* proc_handle,";
    "    ZX_SYSCALL_PARAM_ATTR(handle_acquire) zx_handle_t* vmar_handle) __NONNULL((5, 6)) __LEAF_FN;";
    EmptyString;
    "extern zx_status_t _zx_process_create(";
    "    ZX_SYSCALL_PARAM_ATTR(handle_use) zx_handle_t job,";
    "    const char* name,";
    "    size_t name_size,";
    "    uint32_t options,";
    "    ZX_SYSCALL_PARAM_ATTR(handle_acquire) zx_handle_t* proc_handle,";
    "    ZX_SYSCALL_PARAM_ATTR(handle_acquire) zx_handle_t* vmar_handle) __NONNULL((5, 6)) __LEAF_FN;";
    EmptyString;
    "extern zx_status_t zx_process_start(";
    "    ZX_SYSCALL_PARAM_ATTR(handle_use) zx_handle_t handle,";
    "    ZX_SYSCALL_PARAM_ATTR(handle_use) zx_handle_t thread,";
    "    zx_vaddr_t entry,";
    "    zx_vaddr_t stack,";
    "    ZX_SYSCALL_PARAM_ATTR(handle_release_always) zx_handle_t arg1,";
    "    uintptr_t arg2) __LEAF_FN;";
    EmptyString;
    "extern zx_status_t _zx_process_start(";
    "    ZX_SYSCALL_PARAM_ATTR(handle_use) zx_handle_t handle,";
    "    ZX_SYSCALL_PARAM_ATTR(handle_use) zx_handle_t thread,";
    "    zx_vaddr_t entry,";
    "    zx_vaddr_t stack,";
    "    ZX_SYSCALL_PARAM_ATTR(handle_release_always) zx_handle_t arg1,";
    "    uintptr_t arg2) __LEAF_FN;";
    EmptyString;
    "extern zx_status_t zx_process_read_memory(";
    "    ZX_SYSCALL_PARAM_ATTR(handle_use) zx_handle_t handle,";
    "    zx_vaddr_t vaddr,";
    "    void* buffer,";
    "    size_t buffer_size,";
    "    size_t* actual) __NONNULL((5)) __LEAF_FN;";
    EmptyString;
    "extern zx_status_t _zx_process_read_memory(";
    "    ZX_SYSCALL_PARAM_ATTR(handle_use) zx_handle_t handle,";
    "    zx_vaddr_t vaddr,";
    "    void* buffer,";
    "    size_t buffer_size,";
    "    size_t* actual) __NONNULL((5)) __LEAF_FN;";
    EmptyString;
    "extern zx_status_t zx_process_write_memory(";
    "    ZX_SYSCALL_PARAM_ATTR(handle_use) zx_handle_t handle,";
    "    zx_vaddr_t vaddr,";
    "    const void* buffer,";
    "    size_t buffer_size,";
    "    size_t* actual) __NONNULL((5)) __LEAF_FN;";
    EmptyString;
    "extern zx_status_t _zx_process_write_memory(";
    "    ZX_SYSCALL_PARAM_ATTR(handle_use) zx_handle_t handle,";
    "    zx_vaddr_t vaddr,";
    "    const void* buffer,";
    "    size_t buffer_size,";
    "    size_t* actual) __NONNULL((5)) __LEAF_FN;";
    EmptyString;
    "extern zx_status_t zx_job_create(";
    "    ZX_SYSCALL_PARAM_ATTR(handle_use) zx_handle_t parent_job,";
    "    uint32_t options,";
    "    ZX_SYSCALL_PARAM_ATTR(handle_acquire) zx_handle_t* out) __NONNULL((3)) __LEAF_FN;";
    EmptyString;
    "extern zx_status_t _zx_job_create(";
    "    ZX_SYSCALL_PARAM_ATTR(handle_use) zx_handle_t parent_job,";
    "    uint32_t options,";
    "    ZX_SYSCALL_PARAM_ATTR(handle_acquire) zx_handle_t* out) __NONNULL((3)) __LEAF_FN;";
    EmptyString;
    "extern zx_status_t zx_job_set_policy(";
    "    ZX_SYSCALL_PARAM_ATTR(handle_use) zx_handle_t handle,";
    "    uint32_t options,";
    "    uint32_t topic,";
    "    const void* policy,";
    "    uint32_t count) __LEAF_FN;";
    EmptyString;
    "extern zx_status_t _zx_job_set_policy(";
    "    ZX_SYSCALL_PARAM_ATTR(handle_use) zx_handle_t handle,";
    "    uint32_t options,";
    "    uint32_t topic,";
    "    const void* policy,";
    "    uint32_t count) __LEAF_FN;";
    EmptyString;
    "extern zx_status_t zx_task_bind_exception_port(";
    "    ZX_SYSCALL_PARAM_ATTR(handle_use) zx_handle_t handle,";
    "    ZX_SYSCALL_PARAM_ATTR(handle_use) zx_handle_t port,";
    "    uint64_t key,";
    "    uint32_t options) __LEAF_FN;";
    EmptyString;
    "extern zx_status_t _zx_task_bind_exception_port(";
    "    ZX_SYSCALL_PARAM_ATTR(handle_use) zx_handle_t handle,";
    "    ZX_SYSCALL_PARAM_ATTR(handle_use) zx_handle_t port,";
    "    uint64_t key,";
    "    uint32_t options) __LEAF_FN;";
    EmptyString;
    "extern zx_status_t zx_task_suspend(";
    "    ZX_SYSCALL_PARAM_ATTR(handle_use) zx_handle_t handle,";
    "    ZX_SYSCALL_PARAM_ATTR(handle_acquire) zx_handle_t* token) __NONNULL((2)) __LEAF_FN;";
    EmptyString;
    "extern zx_status_t _zx_task_suspend(";
    "    ZX_SYSCALL_PARAM_ATTR(handle_use) zx_handle_t handle,";
    "    ZX_SYSCALL_PARAM_ATTR(handle_acquire) zx_handle_t* token) __NONNULL((2)) __LEAF_FN;";
    EmptyString;
    "extern zx_status_t zx_task_suspend_token(";
    "    ZX_SYSCALL_PARAM_ATTR(handle_use) zx_handle_t handle,";
    "    ZX_SYSCALL_PARAM_ATTR(handle_acquire) zx_handle_t* token) __NONNULL((2)) __LEAF_FN;";
    EmptyString;
    "extern zx_status_t _zx_task_suspend_token(";
    "    ZX_SYSCALL_PARAM_ATTR(handle_use) zx_handle_t handle,";
    "    ZX_SYSCALL_PARAM_ATTR(handle_acquire) zx_handle_t* token) __NONNULL((2)) __LEAF_FN;";
    EmptyString;
    "extern zx_status_t zx_task_resume_from_exception(";
    "    ZX_SYSCALL_PARAM_ATTR(handle_use) zx_handle_t handle,";
    "    ZX_SYSCALL_PARAM_ATTR(handle_use) zx_handle_t port,";
    "    uint32_t options) __LEAF_FN;";
    EmptyString;
    "extern zx_status_t _zx_task_resume_from_exception(";
    "    ZX_SYSCALL_PARAM_ATTR(handle_use) zx_handle_t handle,";
    "    ZX_SYSCALL_PARAM_ATTR(handle_use) zx_handle_t port,";
    "    uint32_t options) __LEAF_FN;";
    EmptyString ].

(** [definitions.h], lines 611 to 730. *)
Definition lines_0611_0730 : list string :=
  [ "extern zx_status_t zx_task_kill(";
    "    ZX_SYSCALL_PARAM_ATTR(handle_use) zx_handle_t handle) __LEAF_FN;";
    EmptyString;
    "extern zx_status_t _zx_task_kill(";
    "    ZX_SYSCALL_PARAM_ATTR(handle_use) zx_handle_t handle) __LEAF_FN;";
    EmptyString;
    "extern zx_status_t zx_event_create(";
    "    uint32_t options,";
    "    ZX_SYSCALL_PARAM_ATTR(handle_acquire) zx_handle_t* out) __NONNULL((2)) __LEAF_FN;";
    EmptyString;
    "extern zx_status_t _zx_event_create(";
    "    uint32_t options,";
    "    ZX_SYSCALL_PARAM_ATTR(handle_acquire) zx_handle_t* out) __NONNULL((2)) __LEAF_FN;";
    EmptyString;
    "extern zx_status_t zx_eventpair_create(";
    "    uint32_t options,";
    "    ZX_SYSCALL_PARAM_ATTR(handle_acquire) zx_handle_t* out0,";
    "    ZX_SYSCALL_PARAM_ATTR(handle_acquire) zx_handle_t* out1) __NONNULL((2, 3)) __LEAF_FN;";
    EmptyString;
    "extern zx_status_t _zx_eventpair_create(";
    "    uint32_t options,";
    "    ZX_SYSCALL_PARAM_ATTR(handle_acquire) zx_handle_t* out0,";
    "    ZX_SYSCALL_PARAM_ATTR(handle_acquire) zx_handle_t* out1) __NONNULL((2, 3)) __LEAF_FN;";
    EmptyString;
    "extern zx_status_t zx_futex_wait(";
    "    const zx_futex_t* value_ptr,";
    "    zx_futex_t current_value,";
    "    ZX_SYSCALL_PARAM_ATTR(handle_use) zx_handle_t new_futex_owner,";
    "    zx_time_t deadline) __LEAF_FN;";
    EmptyString;
    "extern zx_status_t _zx_futex_wait(";
    "    const zx_futex_t* value_ptr,";
    "    zx_futex_t current_value,";
    "    ZX_SYSCALL_PARAM_ATTR(handle_use) zx_handle_t new_futex_owner,";
    "    zx_time_t deadline) __LEAF_FN;";
    EmptyString;
    "extern zx_status_t zx_futex_wake(";
    "    const zx_futex_t* value_ptr,";
    "    uint32_t count) __LEAF_FN;";
    EmptyString;
    "extern zx_status_t _zx_futex_wake(";
    "    const zx_futex_t* value_ptr,";
    "    uint32_t count) __LEAF_FN;";
    EmptyString;
    "extern zx_status_t zx_futex_requeue(";
    "    const zx_futex_t* wake_ptr,";
    "    uint32_t wake_count,";
    "    zx_futex_t current_value,";
    "    const zx_futex_t* requeue_ptr,";
    "    uint32_t requeue_count,";
    "    ZX_SYSCALL_PARAM_ATTR(handle_use) zx_handle_t new_requeue_owner) __LEAF_FN;";
    EmptyString;
    "extern zx_status_t _zx_futex_requeue(";
    "    const zx_futex_t* wake_ptr,";
    "    uint32_t wake_count,";
    "    zx_futex_t current_value,";
    "    const zx_futex_t* requeue_ptr,";
    "    uint32_t requeue_count,";
    "    ZX_SYSCALL_PARAM_ATTR(handle_use) zx_handle_t new_requeue_owner) __LEAF_FN;";
    EmptyString;
    "extern zx_status_t zx_futex_wake_single_owner(";
    "    const zx_futex_t* value_ptr) __LEAF_FN;";
    EmptyString;
    "extern zx_status_t _zx_futex_wake_single_owner(";
    "    const zx_futex_t* value_ptr) __LEAF_FN;";
    EmptyString;
    "extern zx_status_t zx_futex_requeue_single_owner(";
    "    const zx_futex_t* wake_ptr,";
    "    zx_futex_t current_value,";
    "    const zx_futex_t* requeue_ptr,";
    "    uint32_t requeue_count,";
    "    ZX_SYSCALL_PARAM_ATTR(handle_use) zx_handle_t new_requeue_owner) __LEAF_FN;";
    EmptyString;
    "extern zx_status_t _zx_futex_requeue_single_owner(";
    "    const zx_futex_t* wake_ptr,";
    "    zx_futex_t current_value,";
    "    const zx_futex_t* requeue_ptr,";
    "    uint32_t requeue_count,";
    "    ZX_SYSCALL_PARAM_ATTR(handle_use) zx_handle_t new_requeue_owner) __LEAF_FN;";
    EmptyString;
    "extern zx_status_t zx_futex_get_owner(";
    "    const zx_futex_t* value_ptr,";
    "    zx_koid_t* koid) __LEAF_FN;";
    EmptyString;
    "extern zx_status_t _zx_futex_get_owner(";
    "    const zx_futex_t* value_ptr,";
    "    zx_koid_t* koid) __LEAF_FN;";
    EmptyString;
    "extern zx_status_t zx_futex_wait_deprecated(";
    "    const zx_futex_t* value_ptr,";
    "    int32_t current_value,";
    "    zx_time_t deadline) __LEAF_FN;";
    EmptyString;
    "extern zx_status_t _zx_futex_wait_deprecated(";
    "    const zx_futex_t* value_ptr,";
    "    int32_t current_value,";
    "    zx_time_t deadline) __LEAF_FN;";
    EmptyString;
    "extern zx_status_t zx_futex_requeue_deprecated(";
    "    const zx_futex_t* wake_ptr,";
    "    uint32_t wake_count,";
    "    int32_t current_value,";
    "    const zx_futex_t* requeue_ptr,";
    "    uint32_t requeue_count) __LEAF_FN;";
    EmptyString;
    "extern zx_status_t _zx_futex_requeue_deprecated(";
    "    const zx_futex_t* wake_ptr,";
    "    uint32_t wake_count,";
    "    int32_t current_value,";
    "    const zx_futex_t* requeue_ptr,";
    "    uint32_t requeue_count) __LEAF_FN;";
    EmptyString;
    "extern zx_status_t zx_port_create(";
    "    uint32_t options,";
    "    ZX_SYSCALL_PARAM_ATTR(handle_acquire) zx_handle_t* out) __NONNULL((2)) __LEAF_FN;";
    EmptyString;
    "extern zx_status_t _zx_port_create(";
    "    uint32_t options,";
    "    ZX_SYSCALL_PARAM_ATTR(handle_acquire) zx_handle_t* out) __NONNULL((2)) __LEAF_FN;";
    EmptyString ].

(** [definitions.h], lines 731 to 850. *)
Definition lines_0731_0850 : list string :=
  [ "extern zx_status_t zx_port_queue(";
    "    ZX_SYSCALL_PARAM_ATTR(handle_use) zx_handle_t handle,";
    "    const zx_port_packet_t* packet) __LEAF_FN;";
    EmptyString;
    "extern zx_status_t _zx_port_queue(";
    "    ZX_SYSCALL_PARAM_ATTR(handle_use) zx_handle_t handle,";
    "    const zx_port_packet_t* packet) __LEAF_FN;";
    EmptyString;
    "extern zx_status_t zx_port_wait(";
    "    ZX_SYSCALL_PARAM_ATTR(handle_use) zx_handle_t handle,";
    "    zx_time_t deadline,";
    "    zx_port_packet_t* packet) __LEAF_FN;";
    EmptyString;
    "extern zx_status_t _zx_port_wait(";
    "    ZX_SYSCALL_PARAM_ATTR(handle_use) zx_handle_t handle,";
    "    zx_time_t deadline,";
    "    zx_port_packet_t* packet) __LEAF_FN;";
    EmptyString;
    "extern zx_status_t zx_port_cancel(";
    "    ZX_SYSCALL_PARAM_ATTR(handle_use) zx_handle_t handle,";
    "    ZX_SYSCALL_PARAM_ATTR(handle_use) zx_handle_t source,";
    "    uint64_t key) __LEAF_FN;";
    EmptyString;
    "extern zx_status_t _zx_port_cancel(";
    "    ZX_SYSCALL_PARAM_ATTR(handle_use) zx_handle_t handle,";
    "    ZX_SYSCALL_PARAM_ATTR(handle_use) zx_handle_t source,";
    "    uint64_t key) __LEAF_FN;";
    EmptyString;
    "extern zx_status_t zx_timer_create(";
    "    uint32_t options,";
    "    zx_clock_t clock_id,";
    "    ZX_SYSCALL_PARAM_ATTR(handle_acquire) zx_handle_t* out) __NONNULL((3)) __LEAF_FN;";
    EmptyString;
    "extern zx_status_t _zx_timer_create(";
    "    uint32_t options,";
    "    zx_clock_t clock_id,";
    "    ZX_SYSCALL_PARAM_ATTR(handle_acquire) zx_handle_t* out) __NONNULL((3)) __LEAF_FN;";
    EmptyString;
    "extern zx_status_t zx_timer_set(";
    "    ZX_SYSCALL_PARAM_ATTR(handle_use) zx_handle_t handle,";
    "    zx_time_t deadline,";
    "    zx_duration_t slack) __LEAF_FN;";
    EmptyString;
    "extern zx_status_t _zx_timer_set(";
    "    ZX_SYSCALL_PARAM_ATTR(handle_use) zx_handle_t handle,";
    "    zx_time_t deadline,";
    "    zx_duration_t slack) __LEAF_FN;";
    EmptyString;
    "extern zx_status_t zx_timer_cancel(";
    "    ZX_SYSCALL_PARAM_ATTR(handle_use) zx_handle_t handle) __LEAF_FN;";
    EmptyString;
    "extern zx_status_t _zx_timer_cancel(";
    "    ZX_SYSCALL_PARAM_ATTR(handle_use) zx_handle_t handle) __LEAF_FN;";
    EmptyString;
    "extern zx_status_t zx_vmo_create(";
    "    uint64_t size,";
    "    uint32_t options,";
    "    ZX_SYSCALL_PARAM_ATTR(handle_acquire) zx_handle_t* out) __NONNULL((3)) __LEAF_FN;";
    EmptyString;
    "extern zx_status_t _zx_vmo_create(";
    "    uint64_t size,";
    "    uint32_t options,";
    "    ZX_SYSCALL_PARAM_ATTR(handle_acquire) zx_handle_t* out) __NONNULL((3)) __LEAF_FN;";
    EmptyString;
    "extern zx_status_t zx_vmo_read(";
    "    ZX_SYSCALL_PARAM_ATTR(handle_use) zx_handle_t handle,";
    "    void* buffer,";
    "    uint64_t offset,";
    "    size_t buffer_size) __LEAF_FN;";
    EmptyString;
    "extern zx_status_t _zx_vmo_read(";
    "    ZX_SYSCALL_PARAM_ATTR(handle_use) zx_handle_t handle,";
    "    void* buffer,";
    "    uint64_t offset,";
    "    size_t buffer_size) __LEAF_FN;";
    EmptyString;
    "extern zx_status_t zx_vmo_write(";
    "    ZX_SYSCALL_PARAM_ATTR(handle_use) zx_handle_t handle,";
    "    const void* buffer,";
    "    uint64_t offset,";
    "    size_t buffer_size) __LEAF_FN;";
    EmptyString;
    "extern zx_status_t _zx_vmo_write(";
    "    ZX_SYSCALL_PARAM_ATTR(handle_use) zx_handle_t handle,";
    "    const void* buffer,";
    "    uint64_t offset,";
    "    size_t buffer_size) __LEAF_FN;";
    EmptyString;
    "extern zx_status_t zx_vmo_get_size(";
    "    ZX_SYSCALL_PARAM_ATTR(handle_use) zx_handle_t handle,";
    "    uint64_t* size) __NONNULL((2)) __LEAF_FN;";
    EmptyString;
    "extern zx_status_t _zx_vmo_get_size(";
    "    ZX_SYSCALL_PARAM_ATTR(handle_use) zx_handle_t handle,";
    "    uint64_t* size) __NONNULL((2)) __LEAF_FN;";
    EmptyString;
    "extern zx_status_t zx_vmo_set_size(";
    "    ZX_SYSCALL_PARAM_ATTR(handle_use) zx_handle_t handle,";
    "    uint64_t size) __LEAF_FN;";
    EmptyString;
    "extern zx_status_t _zx_vmo_set_size(";
    "    ZX_SYSCALL_PARAM_ATTR(handle_use) zx_handle_t handle,";
    "    uint64_t size) __LEAF_FN;";
    EmptyString;
    "extern zx_status_t zx_vmo_op_range(";
    "    ZX_SYSCALL_PARAM_ATTR(handle_use) zx_handle_t handle,";
    "    uint32_t op,";
    "    uint64_t offset,";
    "    uint64_t size,";
    "    void* buffer,";
    "    size_t buffer_size) __LEAF_FN;";
    EmptyString;
    "extern zx_status_t _zx_vmo_op_range(";
    "    ZX_SYSCALL_PARAM_ATTR(handle_use) zx_handle_t handle,";
    "    uint32_t op,";
    "    uint64_t offset,";
    "    uint64_t size,";
    "    void* buffer,";
    "    size_t buffer_size) __LEAF_FN;";
    EmptyString ].

(** [definitions.h], lines 851 to 973. *)
Definition lines_0851_0973 : list string :=
  [ "extern zx_status_t zx_vmo_clone(";
    "    ZX_SYSCALL_PARAM_ATTR(handle_use) zx_handle_t handle,";
    "    uint32_t options,";
    "    uint64_t offset,";
    "    uint64_t size,";
    "    ZX_SYSCALL_PARAM_ATTR(handle_acquire) zx_handle_t* out) __NONNULL((5)) __LEAF_FN;";
    EmptyString;
    "extern zx_status_t _zx_vmo_clone(";
    "    ZX_SYSCALL_PARAM_ATTR(handle_use) zx_handle_t handle,";
    "    uint32_t options,";
    "    uint64_t offset,";
    "    uint64_t size,";
    "    ZX_SYSCALL_PARAM_ATTR(handle_acquire) zx_handle_t* out) __NONNULL((5)) __LEAF_FN;";
    EmptyString;
    "extern zx_status_t zx_vmo_set_cache_policy(";
    "    ZX_SYSCALL_PARAM_ATTR(handle_use) zx_handle_t handle,";
    "    uint32_t cache_policy) __LEAF_FN;";
    EmptyString;
    "extern zx_status_t _zx_vmo_set_cache_policy(";
    "    ZX_SYSCALL_PARAM_ATTR(handle_use) zx_handle_t handle,";
    "    uint32_t cache_policy) __LEAF_FN;";
    EmptyString;
    "extern zx_status_t zx_vmo_replace_as_executable(";
    "    ZX_SYSCALL_PARAM_ATTR(handle_release_always) zx_handle_t handle,";
    "    ZX_SYSCALL_PARAM_ATTR(handle_use) zx_handle_t vmex,";
    "    ZX_SYSCALL_PARAM_ATTR(handle_acquire) zx_handle_t* out) __NONNULL((3)) __LEAF_FN;";
    EmptyString;
    "extern zx_status_t _zx_vmo_replace_as_executable(";
    "    ZX_SYSCALL_PARAM_ATTR(handle_release_always) zx_handle_t handle,";
    "    ZX_SYSCALL_PARAM_ATTR(handle_use) zx_handle_t vmex,";
    "    ZX_SYSCALL_PARAM_ATTR(handle_acquire) zx_handle_t* out) __NONNULL((3)) __LEAF_FN;";
    EmptyString;
    "extern zx_status_t zx_vmar_allocate_old(";
    "    ZX_SYSCALL_PARAM_ATTR(handle_use) zx_handle_t parent_vmar,";
    "    uint64_t offset,";
    "    uint64_t size,";
    "    uint32_t map_flags,";
    "    ZX_SYSCALL_PARAM_ATTR(handle_acquire) zx_handle_t* child_vmar,";
    "    zx_vaddr_t* child_addr) __NONNULL((5, 6)) __LEAF_FN;";
    EmptyString;
    "extern zx_status_t _zx_vmar_allocate_old(";
    "    ZX_SYSCALL_PARAM_ATTR(handle_use) zx_handle_t parent_vmar,";
    "    uint64_t offset,";
    "    uint64_t size,";
    "    uint32_t map_flags,";
    "    ZX_SYSCALL_PARAM_ATTR(handle_acquire) zx_handle_t* child_vmar,";
    "    zx_vaddr_t* child_addr) __NONNULL((5, 6)) __LEAF_FN;";
    EmptyString;
    "extern zx_status_t zx_vmar_map_old(";
    "    ZX_SYSCALL_PARAM_ATTR(handle_use) zx_handle_t handle,";
    "    uint64_t vmar_offset,";
    "    ZX_SYSCALL_PARAM_ATTR(handle_use) zx_handle_t vmo,";
    "    uint64_t vmo_offset,";
    "    uint64_t len,";
    "    uint32_t map_flags,";
    "    zx_vaddr_t* mapped_addr) __NONNULL((7)) __LEAF_FN;";
    EmptyString;
    "extern zx_status_t _zx_vmar_map_old(";
    "    ZX_SYSCALL_PARAM_ATTR(handle_use) zx_handle_t handle,";
    "    uint64_t vmar_offset,";
    "    ZX_SYSCALL_PARAM_ATTR(handle_use) zx_handle_t vmo,";
    "    uint64_t vmo_offset,";
    "    uint64_t len,";
    "    uint32_t map_flags,";
    "    zx_vaddr_t* mapped_addr) __NONNULL((7)) __LEAF_FN;";
    EmptyString;
    "extern zx_status_t zx_vmar_protect_old(";
    "    ZX_SYSCALL_PARAM_ATTR(handle_use) zx_handle_t handle,";
    "    zx_vaddr_t addr,";
    "    uint64_t len,";
    "    uint32_t prot_flags) __LEAF_FN;";
    EmptyString;
    "extern zx_status_t _zx_vmar_protect_old(";
    "    ZX_SYSCALL_PARAM_ATTR(handle_use) zx_handle_t handle,";
    "    zx_vaddr_t addr,";
    "    uint64_t len,";
    "    uint32_t prot_flags) __LEAF_FN;";
    EmptyString;
    "extern zx_status_t zx_vmar_allocate(";
    "    ZX_SYSCALL_PARAM_ATTR(handle_use) zx_handle_t parent_vmar,";
    "    zx_vm_option_t options,";
    "    uint64_t offset,";
    "    uint64_t size,";
    "    ZX_SYSCALL_PARAM_ATTR(handle_acquire) zx_handle_t* child_vmar,";
    "    zx_vaddr_t* child_addr) __NONNULL((5, 6)) __LEAF_FN;";
    EmptyString;
    "extern zx_status_t _zx_vmar_allocate(";
    "    ZX_SYSCALL_PARAM_ATTR(handle_use) zx_handle_t parent_vmar,";
    "    zx_vm_option_t options,";
    "    uint64_t offset,";
    "    uint64_t size,";
    "    ZX_SYSCALL_PARAM_ATTR(handle_acquire) zx_handle_t* child_vmar,";
    "    zx_vaddr_t* child_addr) __NONNULL((5, 6)) __LEAF_FN;";
    EmptyString;
    "extern zx_status_t zx_vmar_destroy(";
    "    ZX_SYSCALL_PARAM_ATTR(handle_use) zx_handle_t handle) __LEAF_FN;";
    EmptyString;
    "extern zx_status_t _zx_vmar_destroy(";
    "    ZX_SYSCALL_PARAM_ATTR(handle_use) zx_handle_t handle) __LEAF_FN;";
    EmptyString;
    "extern zx_status_t zx_vmar_map(";
    "    ZX_SYSCALL_PARAM_ATTR(handle_use) zx_handle_t handle,";
    "    zx_vm_option_t options,";
    "    uint64_t vmar_offset,";
    "    ZX_SYSCALL_PARAM_ATTR(handle_use) zx_handle_t vmo,";
    "    uint64_t vmo_offset,";
    "    uint64_t len,";
    "    zx_vaddr_t* mapped_addr) __NONNULL((7)) __LEAF_FN;";
    EmptyString;
    "extern zx_status_t _zx_vmar_map(";
    "    ZX_SYSCALL_PARAM_ATTR(handle_use) zx_handle_t handle,";
    "    zx_vm_option_t options,";
    "    uint64_t vmar_offset,";
    "    ZX_SYSCALL_PARAM_ATTR(handle_use) zx_handle_t vmo,";
    "    uint64_t vmo_offset,";
    "    uint64_t len,";
    "    zx_vaddr_t* mapped_addr) __NONNULL((7)) __LEAF_FN;";
    EmptyString;
    "extern zx_status_t zx_vmar_unmap(";
    "    ZX_SYSCALL_PARAM_ATTR(handle_use) zx_handle_t handle,";
    "    zx_vaddr_t addr,";
    "    uint64_t len) __LEAF_FN;";
    EmptyString ].

(** [definitions.h], lines 974 to 1094. *)
Definition lines_0974_1094 : list string :=
  [ "extern zx_status_t _zx_vmar_unmap(";
    "    ZX_SYSCALL_PARAM_ATTR(handle_use) zx_handle_t handle,";
    "    zx_vaddr_t addr,";
    "    uint64_t len) __LEAF_FN;";
    EmptyString;
    "extern zx_status_t zx_vmar_protect(";
    "    ZX_SYSCALL_PARAM_ATTR(handle_use) zx_handle_t handle,";
    "    zx_vm_option_t options,";
    "    zx_vaddr_t addr,";
    "    uint64_t len) __LEAF_FN;";
    EmptyString;
    "extern zx_status_t _zx_vmar_protect(";
    "    ZX_SYSCALL_PARAM_ATTR(handle_use) zx_handle_t handle,";
    "    zx_vm_option_t options,";
    "    zx_vaddr_t addr,";
    "    uint64_t len) __LEAF_FN;";
    EmptyString;
    "extern void zx_cprng_draw(";
    "    void* buffer,";
    "    size_t buffer_size) __LEAF_FN;";
    EmptyString;
    "extern void _zx_cprng_draw(";
    "    void* buffer,";
    "    size_t buffer_size) __LEAF_FN;";
    EmptyString;
    "extern zx_status_t zx_cprng_add_entropy(";
    "    const void* buffer,";
    "    size_t buffer_size) __LEAF_FN;";
    EmptyString;
    "extern zx_status_t _zx_cprng_add_entropy(";
    "    const void* buffer,";
    "    size_t buffer_size) __LEAF_FN;";
    EmptyString;
    "extern zx_status_t zx_fifo_create(";
    "    size_t elem_count,";
    "    size_t elem_size,";
    "    uint32_t options,";
    "    ZX_SYSCALL_PARAM_ATTR(handle_acquire) zx_handle_t* out0,";
    "    ZX_SYSCALL_PARAM_ATTR(handle_acquire) zx_handle_t* out1) __NONNULL((4, 5)) __LEAF_FN;";
    EmptyString;
    "extern zx_status_t _zx_fifo_create(";
    "    size_t elem_count,";
    "    size_t elem_size,";
    "    uint32_t options,";
    "    ZX_SYSCALL_PARAM_ATTR(handle_acquire) zx_handle_t* out0,";
    "    ZX_SYSCALL_PARAM_ATTR(handle_acquire) zx_handle_t* out1) __NONNULL((4, 5)) __LEAF_FN;";
    EmptyString;
    "extern zx_status_t zx_fifo_read(";
    "    ZX_SYSCALL_PARAM_ATTR(handle_use) zx_handle_t handle,";
    "    size_t elem_size,";
    "    void* data,";
    "    size_t count,";
    "    size_t* actual_count) __LEAF_FN;";
    EmptyString;
    "extern zx_status_t _zx_fifo_read(";
    "    ZX_SYSCALL_PARAM_ATTR(handle_use) zx_handle_t handle,";
    "    size_t elem_size,";
    "    void* data,";
    "    size_t count,";
    "    size_t* actual_count) __LEAF_FN;";
    EmptyString;
    "extern zx_status_t zx_fifo_write(";
    "    ZX_SYSCALL_PARAM_ATTR(handle_use) zx_handle_t handle,";
    "    size_t elem_size,";
    "    const void* data,";
    "    size_t count,";
    "    size_t* actual_count) __LEAF_FN;";
    EmptyString;
    "extern zx_status_t _zx_fifo_write(";
    "    ZX_SYSCALL_PARAM_ATTR(handle_use) zx_handle_t handle,";
    "    size_t elem_size,";
    "    const void* data,";
    "    size_t count,";
    "    size_t* actual_count) __LEAF_FN;";
    EmptyString;
    "extern zx_status_t zx_profile_create(";
    "    ZX_SYSCALL_PARAM_ATTR(handle_use) zx_handle_t root_job,";
    "    const zx_profile_info_t* profile,";
    "    ZX_SYSCALL_PARAM_ATTR(handle_acquire) zx_handle_t* out) __NONNULL((3)) __LEAF_FN;";
    EmptyString;
    "extern zx_status_t _zx_profile_create(";
    "    ZX_SYSCALL_PARAM_ATTR(handle_use) zx_handle_t root_job,";
    "    const zx_profile_info_t* profile,";
    "    ZX_SYSCALL_PARAM_ATTR(handle_acquire) zx_handle_t* out) __NONNULL((3)) __LEAF_FN;";
    EmptyString;
    "extern zx_status_t zx_vmar_unmap_handle_close_thread_exit(";
    "    ZX_SYSCALL_PARAM_ATTR(handle_use) zx_handle_t vmar_handle,";
    "    zx_vaddr_t addr,";
    "    size_t size,";
    "    ZX_SYSCALL_PARAM_ATTR(handle_release) zx_handle_t close_handle) __LEAF_FN;";
    EmptyString;
    "extern zx_status_t _zx_vmar_unmap_handle_close_thread_exit(";
    "    ZX_SYSCALL_PARAM_ATTR(handle_use) zx_handle_t vmar_handle,";
    "    zx_vaddr_t addr,";
    "    size_t size,";
    "    ZX_SYSCALL_PARAM_ATTR(handle_release) zx_handle_t close_handle) __LEAF_FN;";
    EmptyString;
    "extern void zx_futex_wake_handle_close_thread_exit(";
    "    const zx_futex_t* value_ptr,";
    "    uint32_t count,";
    "    int32_t new_value,";
    "    ZX_SYSCALL_PARAM_ATTR(handle_release) zx_handle_t handle) __LEAF_FN __NO_RETURN;";
    EmptyString;
    "extern void _zx_futex_wake_handle_close_thread_exit(";
    "    const zx_futex_t* value_ptr,";
    "    uint32_t count,";
    "    int32_t new_value,";
    "    ZX_SYSCALL_PARAM_ATTR(handle_release) zx_handle_t handle) __LEAF_FN __NO_RETURN;";
    EmptyString;
    "extern zx_status_t zx_log_write(";
    "    ZX_SYSCALL_PARAM_ATTR(handle_use) zx_handle_t handle,";
    "    uint32_t len,";
    "    const void* buffer,";
    "    uint32_t options) __LEAF_FN;";
    EmptyString;
    "extern zx_status_t _zx_log_write(";
    "    ZX_SYSCALL_PARAM_ATTR(handle_use) zx_handle_t handle,";
    "    uint32_t len,";
    "    const void* buffer,";
    "    uint32_t options) __LEAF_FN;";
    EmptyString ].

(** [definitions.h], lines 1095 to 1217. *)
Definition lines_1095_1217 : list string :=
  [ "extern zx_status_t zx_log_read(";
    "    ZX_SYSCALL_PARAM_ATTR(handle_use) zx_handle_t handle,";
    "    uint32_t len,";
    "    void* buffer,";
    "    uint32_t options) __LEAF_FN;";
    EmptyString;
    "extern zx_status_t _zx_log_read(";
    "    ZX_SYSCALL_PARAM_ATTR(handle_use) zx_handle_t handle,";
    "    uint32_t len,";
    "    void* buffer,";
    "    uint32_t options) __LEAF_FN;";
    EmptyString;
    "extern zx_status_t zx_debuglog_create(";
    "    ZX_SYSCALL_PARAM_ATTR(handle_use) zx_handle_t resource,";
    "    uint32_t options,";
    "    ZX_SYSCALL_PARAM_ATTR(handle_acquire) zx_handle_t* out) __NONNULL((3)) __LEAF_FN;";
    EmptyString;
    "extern zx_status_t _zx_debuglog_create(";
    "    ZX_SYSCALL_PARAM_ATTR(handle_use) zx_handle_t resource,";
    "    uint32_t options,";
    "    ZX_SYSCALL_PARAM_ATTR(handle_acquire) zx_handle_t* out) __NONNULL((3)) __LEAF_FN;";
    EmptyString;
    "extern zx_status_t zx_debuglog_write(";
    "    ZX_SYSCALL_PARAM_ATTR(handle_use) zx_handle_t handle,";
    "    uint32_t options,";
    "    const void* buffer,";
    "    size_t buffer_size) __LEAF_FN;";
    EmptyString;
    "extern zx_status_t _zx_debuglog_write(";
    "    ZX_SYSCALL_PARAM_ATTR(handle_use) zx_handle_t handle,";
    "    uint32_t options,";
    "    const void* buffer,";
    "    size_t buffer_size) __LEAF_FN;";
    EmptyString;
    "extern zx_status_t zx_debuglog_read(";
    "    ZX_SYSCALL_PARAM_ATTR(handle_use) zx_handle_t handle,";
    "    uint32_t options,";
    "    void* buffer,";
    "    size_t buffer_size) __LEAF_FN;";
    EmptyString;
    "extern zx_status_t _zx_debuglog_read(";
    "    ZX_SYSCALL_PARAM_ATTR(handle_use) zx_handle_t handle,";
    "    uint32_t options,";
    "    void* buffer,";
    "    size_t buffer_size) __LEAF_FN;";
    EmptyString;
    "extern zx_status_t zx_ktrace_read(";
    "    ZX_SYSCALL_PARAM_ATTR(handle_use) zx_handle_t handle,";
    "    void* data,";
    "    uint32_t offset,";
    "    size_t data_size,";
    "    size_t* actual) __NONNULL((5)) __LEAF_FN;";
    EmptyString;
    "extern zx_status_t _zx_ktrace_read(";
    "    ZX_SYSCALL_PARAM_ATTR(handle_use) zx_handle_t handle,";
    "    void* data,";
    "    uint32_t offset,";
    "    size_t data_size,";
    "    size_t* actual) __NONNULL((5)) __LEAF_FN;";
    EmptyString;
    "extern zx_status_t zx_ktrace_control(";
    "    ZX_SYSCALL_PARAM_ATTR(handle_use) zx_handle_t handle,";
    "    uint32_t action,";
    "    uint32_t options,";
    "    void* ptr) __LEAF_FN;";
    EmptyString;
    "extern zx_status_t _zx_ktrace_control(";
    "    ZX_SYSCALL_PARAM_ATTR(handle_use) zx_handle_t handle,";
    "    uint32_t action,";
    "    uint32_t options,";
    "    void* ptr) __LEAF_FN;";
    EmptyString;
    "extern zx_status_t zx_ktrace_write(";
    "    ZX_SYSCALL_PARAM_ATTR(handle_use) zx_handle_t handle,";
    "    uint32_t id,";
    "    uint32_t arg0,";
    "    uint32_t arg1) __LEAF_FN;";
    EmptyString;
    "extern zx_status_t _zx_ktrace_write(";
    "    ZX_SYSCALL_PARAM_ATTR(handle_use) zx_handle_t handle,";
    "    uint32_t id,";
    "    uint32_t arg0,";
    "    uint32_t arg1) __LEAF_FN;";
    EmptyString;
    "extern zx_status_t zx_mtrace_control(";
    "    ZX_SYSCALL_PARAM_ATTR(handle_use) zx_handle_t handle,";
    "    uint32_t kind,";
    "    uint32_t action,";
    "    uint32_t options,";
    "    void* ptr,";
    "    size_t ptr_size) __LEAF_FN;";
    EmptyString;
    "extern zx_status_t _zx_mtrace_control(";
    "    ZX_SYSCALL_PARAM_ATTR(handle_use) zx_handle_t handle,";
    "    uint32_t kind,";
    "    uint32_t action,";
    "    uint32_t options,";
    "    void* ptr,";
    "    size_t ptr_size) __LEAF_FN;";
    EmptyString;
    "extern zx_status_t zx_debug_read(";
    "    ZX_SYSCALL_PARAM_ATTR(handle_use) zx_handle_t handle,";
    "    char* buffer,";
    "    size_t* buffer_size) __LEAF_FN;";
    EmptyString;
    "extern zx_status_t _zx_debug_read(";
    "    ZX_SYSCALL_PARAM_ATTR(handle_use) zx_handle_t handle,";
    "    char* buffer,";
    "    size_t* buffer_size) __LEAF_FN;";
    EmptyString;
    "extern zx_status_t zx_debug_write(";
    "    const char* buffer,";
    "    size_t buffer_size) __LEAF_FN;";
    EmptyString;
    "extern zx_status_t _zx_debug_write(";
    "    const char* buffer,";
    "    size_t buffer_size) __LEAF_FN;";
    EmptyString;
    "extern zx_status_t zx_debug_send_command(";
    "    ZX_SYSCALL_PARAM_ATTR(handle_use) zx_handle_t resource,";
    "    const char* buffer,";
    "    size_t buffer_size) __LEAF_FN;";
    EmptyString ].

(** [definitions.h], lines 1218 to 1340. *)
Definition lines_1218_1340 : list string :=
  [ "extern zx_status_t _zx_debug_send_command(";
    "    ZX_SYSCALL_PARAM_ATTR(handle_use) zx_handle_t resource,";
    "    const char* buffer,";
    "    size_t buffer_size) __LEAF_FN;";
    EmptyString;
    "extern zx_status_t zx_interrupt_create(";
    "    ZX_SYSCALL_PARAM_ATTR(handle_use) zx_handle_t src_obj,";
    "    uint32_t src_num,";
    "    uint32_t options,";
    "    zx_handle_t* out) __NONNULL((4)) __LEAF_FN;";
    EmptyString;
    "extern zx_status_t _zx_interrupt_create(";
    "    ZX_SYSCALL_PARAM_ATTR(handle_use) zx_handle_t src_obj,";
    "    uint32_t src_num,";
    "    uint32_t options,";
    "    zx_handle_t* out) __NONNULL((4)) __LEAF_FN;";
    EmptyString;
    "extern zx_status_t zx_interrupt_bind(";
    "    ZX_SYSCALL_PARAM_ATTR(handle_use) zx_handle_t handle,";
    "    ZX_SYSCALL_PARAM_ATTR(handle_use) zx_handle_t port,";
    "    uint64_t key,";
    "    uint32_t options) __LEAF_FN;";
    EmptyString;
    "extern zx_status_t _zx_interrupt_bind(";
    "    ZX_SYSCALL_PARAM_ATTR(handle_use) zx_handle_t handle,";
    "    ZX_SYSCALL_PARAM_ATTR(handle_use) zx_handle_t port,";
    "    uint64_t key,";
    "    uint32_t options) __LEAF_FN;";
    EmptyString;
    "extern zx_status_t zx_interrupt_wait(";
    "    ZX_SYSCALL_PARAM_ATTR(handle_use) zx_handle_t handle,";
    "    zx_time_t* out_timestamp) __LEAF_FN;";
    EmptyString;
    "extern zx_status_t _zx_interrupt_wait(";
    "    ZX_SYSCALL_PARAM_ATTR(handle_use) zx_handle_t handle,";
    "    zx_time_t* out_timestamp) __LEAF_FN;";
    EmptyString;
    "extern zx_status_t zx_interrupt_destroy(";
    "    ZX_SYSCALL_PARAM_ATTR(handle_use) zx_handle_t handle) __LEAF_FN;";
    EmptyString;
    "extern zx_status_t _zx_interrupt_destroy(";
    "    ZX_SYSCALL_PARAM_ATTR(handle_use) zx_handle_t handle) __LEAF_FN;";
    EmptyString;
    "extern zx_status_t zx_interrupt_ack(";
    "    ZX_SYSCALL_PARAM_ATTR(handle_use) zx_handle_t handle) __LEAF_FN;";
    EmptyString;
    "extern zx_status_t _zx_interrupt_ack(";
    "    ZX_SYSCALL_PARAM_ATTR(handle_use) zx_handle_t handle) __LEAF_FN;";
    EmptyString;
    "extern zx_status_t zx_interrupt_trigger(";
    "    ZX_SYSCALL_PARAM_ATTR(handle_use) zx_handle_t handle,";
    "    uint32_t options,";
    "    zx_time_t timestamp) __LEAF_FN;";
    EmptyString;
    "extern zx_status_t _zx_interrupt_trigger(";
    "    ZX_SYSCALL_PARAM_ATTR(handle_use) zx_handle_t handle,";
    "    uint32_t options,";
    "    zx_time_t timestamp) __LEAF_FN;";
    EmptyString;
    "extern zx_status_t zx_interrupt_bind_vcpu(";
    "    ZX_SYSCALL_PARAM_ATTR(handle_use) zx_handle_t handle,";
    "    ZX_SYSCALL_PARAM_ATTR(handle_use) zx_handle_t vcpu,";
    "    uint32_t options) __LEAF_FN;";
    EmptyString;
    "extern zx_status_t _zx_interrupt_bind_vcpu(";
    "    ZX_SYSCALL_PARAM_ATTR(handle_use) zx_handle_t handle,";
    "    ZX_SYSCALL_PARAM_ATTR(handle_use) zx_handle_t vcpu,";
    "    uint32_t options) __LEAF_FN;";
    EmptyString;
    "extern zx_status_t zx_ioports_request(";
    "    ZX_SYSCALL_PARAM_ATTR(handle_use) zx_handle_t resource,";
    "    uint16_t io_addr,";
    "    uint32_t len) __LEAF_FN;";
    EmptyString;
    "extern zx_status_t _zx_ioports_request(";
    "    ZX_SYSCALL_PARAM_ATTR(handle_use) zx_handle_t resource,";
    "    uint16_t io_addr,";
    "    uint32_t len) __LEAF_FN;";
    EmptyString;
    "extern zx_status_t zx_vmo_create_contiguous(";
    "    ZX_SYSCALL_PARAM_ATTR(handle_use) zx_handle_t bti,";
    "    size_t size,";
    "    uint32_t alignment_log2,";
    "    ZX_SYSCALL_PARAM_ATTR(handle_acquire) zx_handle_t* out) __NONNULL((4)) __LEAF_FN;";
    EmptyString;
    "extern zx_status_t _zx_vmo_create_contiguous(";
    "    ZX_SYSCALL_PARAM_ATTR(handle_use) zx_handle_t bti,";
    "    size_t size,";
    "    uint32_t alignment_log2,";
    "    ZX_SYSCALL_PARAM_ATTR(handle_acquire) zx_handle_t* out) __NONNULL((4)) __LEAF_FN;";
    EmptyString;
    "extern zx_status_t zx_vmo_create_physical(";
    "    ZX_SYSCALL_PARAM_ATTR(handle_use) zx_handle_t resource,";
    "    zx_paddr_t paddr,";
    "    size_t size,";
    "    ZX_SYSCALL_PARAM_ATTR(handle_acquire) zx_handle_t* out) __NONNULL((4)) __LEAF_FN;";
    EmptyString;
    "extern zx_status_t _zx_vmo_create_physical(";
    "    ZX_SYSCALL_PARAM_ATTR(handle_use) zx_handle_t resource,";
    "    zx_paddr_t paddr,";
    "    size_t size,";
    "    ZX_SYSCALL_PARAM_ATTR(handle_acquire) zx_handle_t* out) __NONNULL((4)) __LEAF_FN;";
    EmptyString;
    "extern zx_status_t zx_iommu_create(";
    "    ZX_SYSCALL_PARAM_ATTR(handle_use) zx_handle_t resource,";
    "    uint32_t type,";
    "    const void* desc,";
    "    size_t desc_size,";
    "    ZX_SYSCALL_PARAM_ATTR(handle_acquire) zx_handle_t* out) __NONNULL((5)) __LEAF_FN;";
    EmptyString;
    "extern zx_status_t _zx_iommu_create(";
    "    ZX_SYSCALL_PARAM_ATTR(handle_use) zx_handle_t resource,";
    "    uint32_t type,";
    "    const void* desc,";
    "    size_t desc_size,";
    "    ZX_SYSCALL_PARAM_ATTR(handle_acquire) zx_handle_t* out) __NONNULL((5)) __LEAF_FN;";
    EmptyString;
    "extern zx_status_t zx_bti_create(";
    "    ZX_SYSCALL_PARAM_ATTR(handle_use) zx_handle_t iommu,";
    "    uint32_t options,";
    "    uint64_t bti_id,";
    "    ZX_SYSCALL_PARAM_ATTR(handle_acquire) zx_handle_t* out) __NONNULL((4)) __LEAF_FN;";
    EmptyString ].

(** [definitions.h], lines 1341 to 1460. *)
Definition lines_1341_1460 : list string :=
  [ "extern zx_status_t _zx_bti_create(";
    "    ZX_SYSCALL_PARAM_ATTR(handle_use) zx_handle_t iommu,";
    "    uint32_t options,";
    "    uint64_t bti_id,";
    "    ZX_SYSCALL_PARAM_ATTR(handle_acquire) zx_handle_t* out) __NONNULL((4)) __LEAF_FN;";
    EmptyString;
    "extern zx_status_t zx_bti_pin(";
    "    ZX_SYSCALL_PARAM_ATTR(handle_use) zx_handle_t handle,";
    "    uint32_t options,";
    "    ZX_SYSCALL_PARAM_ATTR(handle_use) zx_handle_t vmo,";
    "    uint64_t offset,";
    "    uint64_t size,";
    "    zx_paddr_t* addrs,";
    "    size_t addrs_count,";
    "    ZX_SYSCALL_PARAM_ATTR(handle_acquire) zx_handle_t* pmt) __NONNULL((8)) __LEAF_FN;";
    EmptyString;
    "extern zx_status_t _zx_bti_pin(";
    "    ZX_SYSCALL_PARAM_ATTR(handle_use) zx_handle_t handle,";
    "    uint32_t options,";
    "    ZX_SYSCALL_PARAM_ATTR(handle_use) zx_handle_t vmo,";
    "    uint64_t offset,";
    "    uint64_t size,";
    "    zx_paddr_t* addrs,";
    "    size_t addrs_count,";
    "    ZX_SYSCALL_PARAM_ATTR(handle_acquire) zx_handle_t* pmt) __NONNULL((8)) __LEAF_FN;";
    EmptyString;
    "extern zx_status_t zx_bti_release_quarantine(";
    "    ZX_SYSCALL_PARAM_ATTR(handle_use) zx_handle_t handle) __LEAF_FN;";
    EmptyString;
    "extern zx_status_t _zx_bti_release_quarantine(";
    "    ZX_SYSCALL_PARAM_ATTR(handle_use) zx_handle_t handle) __LEAF_FN;";
    EmptyString;
    "extern zx_status_t zx_pmt_unpin(";
    "    ZX_SYSCALL_PARAM_ATTR(handle_release_always) zx_handle_t handle) __LEAF_FN;";
    EmptyString;
    "extern zx_status_t _zx_pmt_unpin(";
    "    ZX_SYSCALL_PARAM_ATTR(handle_release_always) zx_handle_t handle) __LEAF_FN;";
    EmptyString;
    "extern zx_status_t zx_framebuffer_get_info(";
    "    ZX_SYSCALL_PARAM_ATTR(handle_use) zx_handle_t resource,";
    "    uint32_t* format,";
    "    uint32_t* width,";
    "    uint32_t* height,";
    "    uint32_t* stride) __NONNULL((2, 3, 4, 5)) __LEAF_FN;";
    EmptyString;
    "extern zx_status_t _zx_framebuffer_get_info(";
    "    ZX_SYSCALL_PARAM_ATTR(handle_use) zx_handle_t resource,";
    "    uint32_t* format,";
    "    uint32_t* width,";
    "    uint32_t* height,";
    "    uint32_t* stride) __NONNULL((2, 3, 4, 5)) __LEAF_FN;";
    EmptyString;
    "extern zx_status_t zx_framebuffer_set_range(";
    "    ZX_SYSCALL_PARAM_ATTR(handle_use) zx_handle_t resource,";
    "    ZX_SYSCALL_PARAM_ATTR(handle_use) zx_handle_t vmo,";
    "    uint32_t len,";
    "    uint32_t format,";
    "    uint32_t width,";
    "    uint32_t height,";
    "    uint32_t stride) __LEAF_FN;";
    EmptyString;
    "extern zx_status_t _zx_framebuffer_set_range(";
    "    ZX_SYSCALL_PARAM_ATTR(handle_use) zx_handle_t resource,";
    "    ZX_SYSCALL_PARAM_ATTR(handle_use) zx_handle_t vmo,";
    "    uint32_t len,";
    "    uint32_t format,";
    "    uint32_t width,";
    "    uint32_t height,";
    "    uint32_t stride) __LEAF_FN;";
    EmptyString;
    "extern zx_status_t zx_pci_get_nth_device(";
    "    ZX_SYSCALL_PARAM_ATTR(handle_use) zx_handle_t handle,";
    "    uint32_t index,";
    "    zx_pcie_device_info_t* out_info,";
    "    ZX_SYSCALL_PARAM_ATTR(handle_acquire) zx_handle_t* out_handle) __NONNULL((3, 4)) __LEAF_FN;";
    EmptyString;
    "extern zx_status_t _zx_pci_get_nth_device(";
    "    ZX_SYSCALL_PARAM_ATTR(handle_use) zx_handle_t handle,";
    "    uint32_t index,";
    "    zx_pcie_device_info_t* out_info,";
    "    ZX_SYSCALL_PARAM_ATTR(handle_acquire) zx_handle_t* out_handle) __NONNULL((3, 4)) __LEAF_FN;";
    EmptyString;
    "extern zx_status_t zx_pci_enable_bus_master(";
    "    ZX_SYSCALL_PARAM_ATTR(handle_use) zx_handle_t handle,";
    "    bool enable) __LEAF_FN;";
    EmptyString;
    "extern zx_status_t _zx_pci_enable_bus_master(";
    "    ZX_SYSCALL_PARAM_ATTR(handle_use) zx_handle_t handle,";
    "    bool enable) __LEAF_FN;";
    EmptyString;
    "extern zx_status_t zx_pci_reset_device(";
    "    ZX_SYSCALL_PARAM_ATTR(handle_use) zx_handle_t handle) __LEAF_FN;";
    EmptyString;
    "extern zx_status_t _zx_pci_reset_device(";
    "    ZX_SYSCALL_PARAM_ATTR(handle_use) zx_handle_t handle) __LEAF_FN;";
    EmptyString;
    "extern zx_status_t zx_pci_config_read(";
    "    ZX_SYSCALL_PARAM_ATTR(handle_use) zx_handle_t handle,";
    "    uint16_t offset,";
    "    size_t width,";
    "    uint32_t* out_val) __LEAF_FN;";
    EmptyString;
    "extern zx_status_t _zx_pci_config_read(";
    "    ZX_SYSCALL_PARAM_ATTR(handle_use) zx_handle_t handle,";
    "    uint16_t offset,";
    "    size_t width,";
    "    uint32_t* out_val) __LEAF_FN;";
    EmptyString;
    "extern zx_status_t zx_pci_config_write(";
    "    ZX_SYSCALL_PARAM_ATTR(handle_use) zx_handle_t handle,";
    "    uint16_t offset,";
    "    size_t width,";
    "    uint32_t val) __LEAF_FN;";
    EmptyString;
    "extern zx_status_t _zx_pci_config_write(";
    "    ZX_SYSCALL_PARAM_ATTR(handle_use) zx_handle_t handle,";
    "    uint16_t offset,";
    "    size_t width,";
    "    uint32_t val) __LEAF_FN;";
    EmptyString ].

(** [definitions.h], lines 1461 to 1584. *)
Definition lines_1461_1584 : list string :=
  [ "extern zx_status_t zx_pci_cfg_pio_rw(";
    "    ZX_SYSCALL_PARAM_ATTR(handle_use) zx_handle_t handle,";
    "    uint8_t bus,";
    "    uint8_t dev,";
    "    uint8_t func,";
    "    uint8_t offset,";
    "    uint32_t* val,";
    "    size_t width,";
    "    bool write) __LEAF_FN;";
    EmptyString;
    "extern zx_status_t _zx_pci_cfg_pio_rw(";
    "    ZX_SYSCALL_PARAM_ATTR(handle_use) zx_handle_t handle,";
    "    uint8_t bus,";
    "    uint8_t dev,";
    "    uint8_t func,";
    "    uint8_t offset,";
    "    uint32_t* val,";
    "    size_t width,";
    "    bool write) __LEAF_FN;";
    EmptyString;
    "extern zx_status_t zx_pci_get_bar(";
    "    ZX_SYSCALL_PARAM_ATTR(handle_use) zx_handle_t handle,";
    "    uint32_t bar_num,";
    "    zx_pci_bar_t* out_bar,";
    "    ZX_SYSCALL_PARAM_ATTR(handle_acquire) zx_handle_t* out_handle) __NONNULL((4)) __LEAF_FN;";
    EmptyString;
    "extern zx_status_t _zx_pci_get_bar(";
    "    ZX_SYSCALL_PARAM_ATTR(handle_use) zx_handle_t handle,";
    "    uint32_t bar_num,";
    "    zx_pci_bar_t* out_bar,";
    "    ZX_SYSCALL_PARAM_ATTR(handle_acquire) zx_handle_t* out_handle) __NONNULL((4)) __LEAF_FN;";
    EmptyString;
    "extern zx_status_t zx_pci_map_interrupt(";
    "    ZX_SYSCALL_PARAM_ATTR(handle_use) zx_handle_t handle,";
    "    int32_t which_irq,";
    "    ZX_SYSCALL_PARAM_ATTR(handle_acquire) zx_handle_t* out_handle) __NONNULL((3)) __LEAF_FN;";
    EmptyString;
    "extern zx_status_t _zx_pci_map_interrupt(";
    "    ZX_SYSCALL_PARAM_ATTR(handle_use) zx_handle_t handle,";
    "    int32_t which_irq,";
    "    ZX_SYSCALL_PARAM_ATTR(handle_acquire) zx_handle_t* out_handle) __NONNULL((3)) __LEAF_FN;";
    EmptyString;
    "extern zx_status_t zx_pci_query_irq_mode(";
    "    ZX_SYSCALL_PARAM_ATTR(handle_use) zx_handle_t handle,";
    "    uint32_t mode,";
    "    uint32_t* out_max_irqs) __NONNULL((3)) __LEAF_FN;";
    EmptyString;
    "extern zx_status_t _zx_pci_query_irq_mode(";
    "    ZX_SYSCALL_PARAM_ATTR(handle_use) zx_handle_t handle,";
    "    uint32_t mode,";
    "    uint32_t* out_max_irqs) __NONNULL((3)) __LEAF_FN;";
    EmptyString;
    "extern zx_status_t zx_pci_set_irq_mode(";
    "    ZX_SYSCALL_PARAM_ATTR(handle_use) zx_handle_t handle,";
    "    uint32_t mode,";
    "    uint32_t requested_irq_count) __LEAF_FN;";
    EmptyString;
    "extern zx_status_t _zx_pci_set_irq_mode(";
    "    ZX_SYSCALL_PARAM_ATTR(handle_use) zx_handle_t handle,";
    "    uint32_t mode,";
    "    uint32_t requested_irq_count) __LEAF_FN;";
    EmptyString;
    "extern zx_status_t zx_pci_init(";
    "    ZX_SYSCALL_PARAM_ATTR(handle_use) zx_handle_t handle,";
    "    const zx_pci_init_arg_t* init_buf,";
    "    uint32_t len) __LEAF_FN;";
    EmptyString;
    "extern zx_status_t _zx_pci_init(";
    "    ZX_SYSCALL_PARAM_ATTR(handle_use) zx_handle_t handle,";
    "    const zx_pci_init_arg_t* init_buf,";
    "    uint32_t len) __LEAF_FN;";
    EmptyString;
    "extern zx_status_t zx_pci_add_subtract_io_range(";
    "    ZX_SYSCALL_PARAM_ATTR(handle_use) zx_handle_t handle,";
    "    bool mmio,";
    "    uint64_t base,";
    "    uint64_t len,";
    "    bool add) __LEAF_FN;";
    EmptyString;
    "extern zx_status_t _zx_pci_add_subtract_io_range(";
    "    ZX_SYSCALL_PARAM_ATTR(handle_use) zx_handle_t handle,";
    "    bool mmio,";
    "    uint64_t base,";
    "    uint64_t len,";
    "    bool add) __LEAF_FN;";
    EmptyString;
    "extern zx_status_t zx_pc_firmware_tables(";
    "    ZX_SYSCALL_PARAM_ATTR(handle_use) zx_handle_t handle,";
    "    zx_paddr_t* acpi_rsdp,";
    "    zx_paddr_t* smbios) __NONNULL((2, 3)) __LEAF_FN;";
    EmptyString;
    "extern zx_status_t _zx_pc_firmware_tables(";
    "    ZX_SYSCALL_PARAM_ATTR(handle_use) zx_handle_t handle,";
    "    zx_paddr_t* acpi_rsdp,";
    "    zx_paddr_t* smbios) __NONNULL((2, 3)) __LEAF_FN;";
    EmptyString;
    "extern zx_status_t zx_smc_call(";
    "    ZX_SYSCALL_PARAM_ATTR(handle_use) zx_handle_t handle,";
    "    const zx_smc_parameters_t* parameters,";
    "    zx_smc_result_t* out_smc_result) __NONNULL((3)) __LEAF_FN;";
    EmptyString;
    "extern zx_status_t _zx_smc_call(";
    "    ZX_SYSCALL_PARAM_ATTR(handle_use) zx_handle_t handle,";
    "    const zx_smc_parameters_t* parameters,";
    "    zx_smc_result_t* out_smc_result) __NONNULL((3)) __LEAF_FN;";
    EmptyString;
    "extern zx_status_t zx_resource_create(";
    "    ZX_SYSCALL_PARAM_ATTR(handle_use) zx_handle_t parent_rsrc,";
    "    uint32_t options,";
    "    uint64_t base,";
    "    size_t size,";
    "    const char* name,";
    "    size_t name_size,";
    "    ZX_SYSCALL_PARAM_ATTR(handle_acquire) zx_handle_t* resource_out) __NONNULL((7)) __LEAF_FN;";
    EmptyString;
    "extern zx_status_t _zx_resource_create(";
    "    ZX_SYSCALL_PARAM_ATTR(handle_use) zx_handle_t parent_rsrc,";
    "    uint32_t options,";
    "    uint64_t base,";
    "    size_t size,";
    "    const char* name,";
    "    size_t name_size,";
    "    ZX_SYSCALL_PARAM_ATTR(handle_acquire) zx_handle_t* resource_out) __NONNULL((7)) __LEAF_FN;";
    EmptyString ].

(** [definitions.h], lines 1585 to 1710. *)
Definition lines_1585_1710 : list string :=
  [ "extern zx_status_t zx_guest_create(";
    "    ZX_SYSCALL_PARAM_ATTR(handle_use) zx_handle_t resource,";
    "    uint32_t options,";
    "    ZX_SYSCALL_PARAM_ATTR(handle_acquire) zx_handle_t* guest_handle,";
    "    ZX_SYSCALL_PARAM_ATTR(handle_acquire) zx_handle_t* vmar_handle) __NONNULL((3, 4)) __LEAF_FN;";
    EmptyString;
    "extern zx_status_t _zx_guest_create(";
    "    ZX_SYSCALL_PARAM_ATTR(handle_use) zx_handle_t resource,";
    "    uint32_t options,";
    "    ZX_SYSCALL_PARAM_ATTR(handle_acquire) zx_handle_t* guest_handle,";
    "    ZX_SYSCALL_PARAM_ATTR(handle_acquire) zx_handle_t* vmar_handle) __NONNULL((3, 4)) __LEAF_FN;";
    EmptyString;
    "extern zx_status_t zx_guest_set_trap(";
    "    ZX_SYSCALL_PARAM_ATTR(handle_use) zx_handle_t handle,";
    "    uint32_t kind,";
    "    zx_vaddr_t addr,";
    "    size_t size,";
    "    ZX_SYSCALL_PARAM_ATTR(handle_use) zx_handle_t port_handle,";
    "    uint64_t key) __LEAF_FN;";
    EmptyString;
    "extern zx_status_t _zx_guest_set_trap(";
    "    ZX_SYSCALL_PARAM_ATTR(handle_use) zx_handle_t handle,";
    "    uint32_t kind,";
    "    zx_vaddr_t addr,";
    "    size_t size,";
    "    ZX_SYSCALL_PARAM_ATTR(handle_use) zx_handle_t port_handle,";
    "    uint64_t key) __LEAF_FN;";
    EmptyString;
    "extern zx_status_t zx_vcpu_create(";
    "    ZX_SYSCALL_PARAM_ATTR(handle_use) zx_handle_t guest,";
    "    uint32_t options,";
    "    zx_vaddr_t entry,";
    "    ZX_SYSCALL_PARAM_ATTR(handle_acquire) zx_handle_t* out) __NONNULL((4)) __LEAF_FN;";
    EmptyString;
    "extern zx_status_t _zx_vcpu_create(";
    "    ZX_SYSCALL_PARAM_ATTR(handle_use) zx_handle_t guest,";
    "    uint32_t options,";
    "    zx_vaddr_t entry,";
    "    ZX_SYSCALL_PARAM_ATTR(handle_acquire) zx_handle_t* out) __NONNULL((4)) __LEAF_FN;";
    EmptyString;
    "extern zx_status_t zx_vcpu_resume(";
    "    ZX_SYSCALL_PARAM_ATTR(handle_use) zx_handle_t handle,";
    "    zx_port_packet_t* packet) __NONNULL((2)) __LEAF_FN;";
    EmptyString;
    "extern zx_status_t _zx_vcpu_resume(";
    "    ZX_SYSCALL_PARAM_ATTR(handle_use) zx_handle_t handle,";
    "    zx_port_packet_t* packet) __NONNULL((2)) __LEAF_FN;";
    EmptyString;
    "extern zx_status_t zx_vcpu_interrupt(";
    "    ZX_SYSCALL_PARAM_ATTR(handle_use) zx_handle_t handle,";
    "    uint32_t vector) __LEAF_FN;";
    EmptyString;
    "extern zx_status_t _zx_vcpu_interrupt(";
    "    ZX_SYSCALL_PARAM_ATTR(handle_use) zx_handle_t handle,";
    "    uint32_t vector) __LEAF_FN;";
    EmptyString;
    "extern zx_status_t zx_vcpu_read_state(";
    "    ZX_SYSCALL_PARAM_ATTR(handle_use) zx_handle_t handle,";
    "    uint32_t kind,";
    "    void* buffer,";
    "    size_t buffer_size) __LEAF_FN;";
    EmptyString;
    "extern zx_status_t _zx_vcpu_read_state(";
    "    ZX_SYSCALL_PARAM_ATTR(handle_use) zx_handle_t handle,";
    "    uint32_t kind,";
    "    void* buffer,";
    "    size_t buffer_size) __LEAF_FN;";
    EmptyString;
    "extern zx_status_t zx_vcpu_write_state(";
    "    ZX_SYSCALL_PARAM_ATTR(handle_use) zx_handle_t handle,";
    "    uint32_t kind,";
    "    const void* buffer,";
    "    size_t buffer_size) __LEAF_FN;";
    EmptyString;
    "extern zx_status_t _zx_vcpu_write_state(";
    "    ZX_SYSCALL_PARAM_ATTR(handle_use) zx_handle_t handle,";
    "    uint32_t kind,";
    "    const void* buffer,";
    "    size_t buffer_size) __LEAF_FN;";
    EmptyString;
    "extern zx_status_t zx_system_mexec(";
    "    ZX_SYSCALL_PARAM_ATTR(handle_use) zx_handle_t resource,";
    "    ZX_SYSCALL_PARAM_ATTR(handle_use) zx_handle_t kernel_vmo,";
    "    ZX_SYSCALL_PARAM_ATTR(handle_use) zx_handle_t bootimage_vmo) __LEAF_FN;";
    EmptyString;
    "extern zx_status_t _zx_system_mexec(";
    "    ZX_SYSCALL_PARAM_ATTR(handle_use) zx_handle_t resource,";
    "    ZX_SYSCALL_PARAM_ATTR(handle_use) zx_handle_t kernel_vmo,";
    "    ZX_SYSCALL_PARAM_ATTR(handle_use) zx_handle_t bootimage_vmo) __LEAF_FN;";
    EmptyString;
    "extern zx_status_t zx_system_mexec_payload_get(";
    "    ZX_SYSCALL_PARAM_ATTR(handle_use) zx_handle_t resource,";
    "    void* buffer,";
    "    size_t buffer_size) __LEAF_FN;";
    EmptyString;
    "extern zx_status_t _zx_system_mexec_payload_get(";
    "    ZX_SYSCALL_PARAM_ATTR(handle_use) zx_handle_t resource,";
    "    void* buffer,";
    "    size_t buffer_size) __LEAF_FN;";
    EmptyString;
    "extern zx_status_t zx_system_powerctl(";
    "    ZX_SYSCALL_PARAM_ATTR(handle_use) zx_handle_t resource,";
    "    uint32_t cmd,";
    "    const zx_system_powerctl_arg_t* arg) __LEAF_FN;";
    EmptyString;
    "extern zx_status_t _zx_system_powerctl(";
    "    ZX_SYSCALL_PARAM_ATTR(handle_use) zx_handle_t resource,";
    "    uint32_t cmd,";
    "    const zx_system_powerctl_arg_t* arg) __LEAF_FN;";
    EmptyString;
    "extern zx_status_t zx_pager_create(";
    "    uint32_t options,";
    "    ZX_SYSCALL_PARAM_ATTR(pager) zx_handle_t* out_pager) __NONNULL((2)) __LEAF_FN;";
    EmptyString;
    "extern zx_status_t _zx_pager_create(";
    "    uint32_t options,";
    "    ZX_SYSCALL_PARAM_ATTR(pager) zx_handle_t* out_pager) __NONNULL((2)) __LEAF_FN;";
    EmptyString;
    "extern zx_status_t zx_pager_create_vmo(";
    "    ZX_SYSCALL_PARAM_ATTR(handle_use) zx_handle_t pager,";
    "    ZX_SYSCALL_PARAM_ATTR(handle_use) zx_handle_t port,";
    "    uint64_t key,";
    "    uint64_t size,";
    "    uint32_t options,";
    "    ZX_SYSCALL_PARAM_ATTR(out_pager_vmo) zx_handle_t* out_pager_vmo) __NONNULL((6)) __LEAF_FN;";
    EmptyString ].

(** [definitions.h], lines 1711 to 1838. *)
Definition lines_1711_1838 : list string :=
  [ "extern zx_status_t _zx_pager_create_vmo(";
    "    ZX_SYSCALL_PARAM_ATTR(handle_use) zx_handle_t pager,";
    "    ZX_SYSCALL_PARAM_ATTR(handle_use) zx_handle_t port,";
    "    uint64_t key,";
    "    uint64_t size,";
    "    uint32_t options,";
    "    ZX_SYSCALL_PARAM_ATTR(out_pager_vmo) zx_handle_t* out_pager_vmo) __NONNULL((6)) __LEAF_FN;";
    EmptyString;
    "extern zx_status_t zx_syscall_test_0(";
    "    void) __LEAF_FN;";
    EmptyString;
    "extern zx_status_t _zx_syscall_test_0(";
    "    void) __LEAF_FN;";
    EmptyString;
    "extern zx_status_t zx_syscall_test_1(";
    "    int a) __LEAF_FN;";
    EmptyString;
    "extern zx_status_t _zx_syscall_test_1(";
    "    int a) __LEAF_FN;";
    EmptyString;
    "extern zx_status_t zx_syscall_test_2(";
    "    int a,";
    "    int b) __LEAF_FN;";
    EmptyString;
    "extern zx_status_t _zx_syscall_test_2(";
    "    int a,";
    "    int b) __LEAF_FN;";
    EmptyString;
    "extern zx_status_t zx_syscall_test_3(";
    "    int a,";
    "    int b,";
    "    int c) __LEAF_FN;";
    EmptyString;
    "extern zx_status_t _zx_syscall_test_3(";
    "    int a,";
    "    int b,";
    "    int c) __LEAF_FN;";
    EmptyString;
    "extern zx_status_t zx_syscall_test_4(";
    "    int a,";
    "    int b,";
    "    int c,";
    "    int d) __LEAF_FN;";
    EmptyString;
    "extern zx_status_t _zx_syscall_test_4(";
    "    int a,";
    "    int b,";
    "    int c,";
    "    int d) __LEAF_FN;";
    EmptyString;
    "extern zx_status_t zx_syscall_test_5(";
    "    int a,";
    "    int b,";
    "    int c,";
    "    int d,";
    "    int e) __LEAF_FN;";
    EmptyString;
    "extern zx_status_t _zx_syscall_test_5(";
    "    int a,";
    "    int b,";
    "    int c,";
    "    int d,";
    "    int e) __LEAF_FN;";
    EmptyString;
    "extern zx_status_t zx_syscall_test_6(";
    "    int a,";
    "    int b,";
    "    int c,";
    "    int d,";
    "    int e,";
    "    int f) __LEAF_FN;";
    EmptyString;
    "extern zx_status_t _zx_syscall_test_6(";
    "    int a,";
    "    int b,";
    "    int c,";
    "    int d,";
    "    int e,";
    "    int f) __LEAF_FN;";
    EmptyString;
    "extern zx_status_t zx_syscall_test_7(";
    "    int a,";
    "    int b,";
    "    int c,";
    "    int d,";
    "    int e,";
    "    int f,";
    "    int g) __LEAF_FN;";
    EmptyString;
    "extern zx_status_t _zx_syscall_test_7(";
    "    int a,";
    "    int b,";
    "    int c,";
    "    int d,";
    "    int e,";
    "    int f,";
    "    int g) __LEAF_FN;";
    EmptyString;
    "extern zx_status_t zx_syscall_test_8(";
    "    int a,";
    "    int b,";
    "    int c,";
    "    int d,";
    "    int e,";
    "    int f,";
    "    int g,";
    "    int h) __LEAF_FN;";
    EmptyString;
    "extern zx_status_t _zx_syscall_test_8(";
    "    int a,";
    "    int b,";
    "    int c,";
    "    int d,";
    "    int e,";
    "    int f,";
    "    int g,";
    "    int h) __LEAF_FN;";
    EmptyString;
    "extern zx_status_t zx_syscall_test_wrapper(";
    "    int a,";
    "    int b,";
    "    int c) __LEAF_FN;";
    EmptyString;
    "extern zx_status_t _zx_syscall_test_wrapper(";
    "    int a,";
    "    int b,";
    "    int c) __LEAF_FN;";
    EmptyString ].

(** The whole header, line by line (1838 lines). *)
Definition definitions_h : list string :=
  lines_0001_0121 ++ lines_0122_0244 ++ lines_0245_0366 ++ lines_0367_0488 ++
  lines_0489_0610 ++ lines_0611_0730 ++ lines_0731_0850 ++ lines_0851_0973 ++
  lines_0974_1094 ++ lines_1095_1217 ++ lines_1218_1340 ++ lines_1341_1460 ++
  lines_1461_1584 ++ lines_1585_1710 ++ lines_1711_1838.
(** ** Printing *)

Definition render_type (t : ctype) : string :=
  ((if ty_const t then "const " else EmptyString) ++ ty_base t ++
   (if ty_ptr t then "*" else EmptyString))%string.

Definition render_param (p : param) : string :=
  (match p_attr p with
   | Some a => "ZX_SYSCALL_PARAM_ATTR(" ++ a ++ ") "
   | None => EmptyString
   end ++ render_type (p_type p) ++ " " ++ p_name p)%string.

Definition render_nat (n : nat) : string :=
  NilEmpty.string_of_uint (Nat.to_uint n).

Definition render_attr (a : attr) : string :=
  (" " ++ a_name a ++
   match a_args a with
   | Some ix => "((" ++ String.concat ", " (map render_nat ix) ++ "))"
   | None => EmptyString
   end)%string.

(** The end of the last parameter line: [) attrs;]. *)
Definition render_close (ats : list attr) : string :=
  (")" ++ String.concat EmptyString (map render_attr ats) ++ ";")%string.

Fixpoint render_params (close : string) (ps : list param) : list string :=
  match ps with
  | [] => []
  | [p] => [("    " ++ render_param p ++ close)%string]
  | p :: ps' => ("    " ++ render_param p ++ ",")%string :: render_params close ps'
  end.

Definition render_extern (ret : ctype) (name : string) : string :=
  ("extern " ++ render_type ret ++ " " ++ name ++ "(")%string.

Definition render_decl (d : decl) : list string :=
  render_extern (d_ret d) (d_name d) ::
  match d_params d with
  | [] => [("    void" ++ render_close (d_attrs d))%string]
  | ps => render_params (render_close (d_attrs d)) ps
  end.

Definition render_item (i : item) : list string :=
  match i with
  | Comment t => [("//" ++ t)%string]
  | Blank => [EmptyString]
  | Proto d => render_decl d
  end.

Definition render_header (its : list item) : list string :=
  List.concat (map render_item its).

(** ** Reading *)

Notation "x <- e ; k" :=
  (match e with Some x => k | None => None end)
  (at level 60, e at next level, right associativity, only parsing).
Notation "' p <- e ; k" :=
  (match e with Some p => k | None => None end)
  (at level 60, p pattern, e at next level, right associativity, only parsing).

(** [eat p s] removes the prefix [p] from [s]. *)
Fixpoint eat (p s : string) : option string :=
  match p with
  | EmptyString => Some s
  | String a p' =>
      match s with
      | String b s' => if Ascii.eqb a b then eat p' s' else None
      | EmptyString => None
      end
  end.

(** The longest prefix of characters that satisfy [f], and the rest. *)
Fixpoint span (f : ascii -> bool) (s : string) : string * string :=
  match s with
  | EmptyString => (EmptyString, EmptyString)
  | String c s' =>
      if f c then let (a, b) := span f s' in (String c a, b)
      else (EmptyString, s)
  end.

Definition is_digit (c : ascii) : bool :=
  let n := N_of_ascii c in ((48 <=? n) && (n <=? 57))%N.

Definition is_ident_char (c : ascii) : bool :=
  let n := N_of_ascii c in
  (is_digit c || ((65 <=? n) && (n <=? 90)) || ((97 <=? n) && (n <=? 122))
   || (n =? 95))%N.

Definition digit_of (c : ascii) : option nat :=
  if is_digit c then Some (N.to_nat (N_of_ascii c - 48)) else None.

Definition parse_ident (s : string) : option (string * string) :=
  match span is_ident_char s with
  | (EmptyString, _) => None
  | (id, rest) => Some (id, rest)
  end.

Definition parse_type (s : string) : option (ctype * string) :=
  let (c, s1) :=
    match eat "const " s with Some r => (true, r) | None => (false, s) end in
  '(b, s2) <- parse_ident s1;
  match eat "*" s2 with
  | Some r => Some (CType c b true, r)
  | None => Some (CType c b false, s2)
  end.

(** The positions of [__NONNULL((2, 3))], read after the opening [((]:
    decimal numbers separated by a comma and a space, closed by [))]. *)
Fixpoint parse_indices (cur : option nat) (acc : list nat) (s : string)
  : option (list nat * string) :=
  match s with
  | EmptyString => None
  | String c s' =>
      match digit_of c, cur with
      | Some k, Some n => parse_indices (Some (10 * n + k)) acc s'
      | Some k, None => parse_indices (Some k) acc s'
      | None, Some n =>
          if Ascii.eqb c "," then
            match s' with
            | String " " s'' => parse_indices None (n :: acc) s''
            | _ => None
            end
          else if Ascii.eqb c ")" then
            match s' with
            | String ")" r => Some (rev (n :: acc), r)
            | _ => None
            end
          else None
      | None, None => None
      end
  end.

(** The attributes up to the closing semicolon. *)
Fixpoint parse_attrs (fuel : nat) (s : string) : option (list attr) :=
  match fuel with
  | O => None
  | S fuel' =>
      if String.eqb s ";" then Some []
      else
        s1 <- eat " " s;
        '(nm, s2) <- parse_ident s1;
        match eat "((" s2 with
        | Some s3 =>
            '(ix, s4) <- parse_indices None [] s3;
            ats <- parse_attrs fuel' s4;
            Some (Attr nm (Some ix) :: ats)
        | None =>
            ats <- parse_attrs fuel' s2;
            Some (Attr nm None :: ats)
        end
  end.

(** How a parameter line ends: with a comma, or by closing the prototype. *)
Inductive line_end : Set :=
| More
| Last (ats : list attr).

Definition parse_line_end (s : string) : option line_end :=
  if String.eqb s "," then Some More
  else
    r <- eat ")" s;
    ats <- parse_attrs (S (String.length r)) r;
    Some (Last ats).

Definition parse_param_attr (s : string) : option (option string * string) :=
  match eat "ZX_SYSCALL_PARAM_ATTR(" s with
  | Some s1 =>
      '(a, s2) <- parse_ident s1;
      s3 <- eat ") " s2;
      Some (Some a, s3)
  | None => Some (None, s)
  end.

Definition is_void (a : option string) (t : ctype) : bool :=
  match a with
  | Some _ => false
  | None => negb (ty_const t) && String.eqb (ty_base t) "void" && negb (ty_ptr t)
  end.

(** A parameter line gives a parameter, or nothing for a lone [void]. *)
Definition parse_param_line (l : string) : option (option param * line_end) :=
  s0 <- eat "    " l;
  '(a, s1) <- parse_param_attr s0;
  '(t, s2) <- parse_type s1;
  match eat " " s2 with
  | Some s3 =>
      '(n, s4) <- parse_ident s3;
      e <- parse_line_end s4;
      Some (Some (Param a t n), e)
  | None =>
      if is_void a t then
        e <- parse_line_end s2;
        match e with
        | Last _ => Some (None, e)
        | More => None
        end
      else None
  end.

Definition parse_extern (l : string) : option (ctype * string) :=
  s0 <- eat "extern " l;
  '(t, s1) <- parse_type s0;
  s2 <- eat " " s1;
  '(n, s3) <- parse_ident s2;
  if String.eqb s3 "(" then Some (t, n) else None.

(** The reader is between items, or inside a prototype whose parameters
    read so far are kept in reverse. *)
Inductive reader : Set :=
| Idle
| Open (ret : ctype) (name : string) (seen : list param).

Definition step (st : reader) (l : string) : option (reader * option item) :=
  match st with
  | Idle =>
      match l with
      | EmptyString => Some (Idle, Some Blank)
      | _ =>
          match eat "//" l with
          | Some t => Some (Idle, Some (Comment t))
          | None =>
              '(t, n) <- parse_extern l;
              Some (Open t n [], None)
          end
      end
  | Open t n seen =>
      '(p, e) <- parse_param_line l;
      match p, e with
      | Some p, More => Some (Open t n (p :: seen), None)
      | Some p, Last ats =>
          Some (Idle, Some (Proto (Decl t n (rev (p :: seen)) ats)))
      | None, Last ats =>
          match seen with
          | [] => Some (Idle, Some (Proto (Decl t n [] ats)))
          | _ :: _ => None
          end
      | None, More => None
      end
  end.

Fixpoint read_lines (st : reader) (ls : list string) : option (list item) :=
  match ls with
  | [] => match st with Idle => Some [] | Open _ _ _ => None end
  | l :: ls' =>
      '(st', out) <- step st l;
      rest <- read_lines st' ls';
      Some (match out with Some i => i :: rest | None => rest end)
  end.

Definition parse_header (ls : list string) : option (list item) :=
  read_lines Idle ls.

(** ** The declaration table *)

Definition header_items : list item :=
  Eval vm_compute in
    match parse_header definitions_h with Some its => its | None => [] end.

Fixpoint protos (its : list item) : list decl :=
  match its with
  | [] => []
  | Proto d :: its' => d :: protos its'
  | _ :: its' => protos its'
  end.

(** The prototypes of the header, in the order of the file. *)
Definition syscalls : list decl := Eval vm_compute in protos header_items.

(** ** Names, attributes and tags *)

Definition scalar (n : string) : ctype := CType false n false.
Definition pointer_to (n : string) : ctype := CType false n true.

Definition zx_status_t : ctype := scalar "zx_status_t".
Definition void_t : ctype := scalar "void".
Definition zx_handle_t : ctype := scalar "zx_handle_t".

(** Return types that carry a raw value instead of a status. *)
Definition raw_value_types : list ctype :=
  [scalar "zx_time_t"; scalar "zx_ticks_t"; scalar "uint32_t"; scalar "uint64_t"].

Definition LEAF_FN : attr := Attr "__LEAF_FN" None.
Definition CONST : attr := Attr "__CONST" None.
Definition NO_RETURN : attr := Attr "__NO_RETURN" None.
Definition NONNULL (ix : list nat) : attr := Attr "__NONNULL" (Some ix).

(** The parameter positions, counted from 1, listed in [__NONNULL]. *)
Definition nonnull (d : decl) : list nat :=
  flat_map (fun a =>
    if String.eqb (a_name a) "__NONNULL"
    then match a_args a with Some ix => ix | None => [] end
    else []) (d_attrs d).

(** The parameter at position [i], counted from 1 as [__NONNULL] does. *)
Definition param_at (d : decl) (i : nat) : option param :=
  match i with
  | O => None
  | S k => nth_error (d_params d) k
  end.

Definition starts_with (p s : string) : bool :=
  match eat p s with Some _ => true | None => false end.

Definition is_public (d : decl) : bool := starts_with "zx_" (d_name d).
Definition is_private (d : decl) : bool := starts_with "_zx_" (d_name d).

Definition private_name (n : string) : string := String "_" n.

(** The private twin of a prototype: the same prototype under the name with
    a leading underscore. *)
Definition private_of (d : decl) : decl :=
  Decl (d_ret d) (private_name (d_name d)) (d_params d) (d_attrs d).

(** [insert_at k c s] puts the character [c] before column [k] of [s]. *)
Fixpoint insert_at (k : nat) (c : ascii) (s : string) : string :=
  match k, s with
  | S k', String a s' => String a (insert_at k' c s')
  | _, _ => String c s
  end.

(** The column of the first line of a prototype where its name starts. *)
Definition name_column (d : decl) : nat :=
  String.length ("extern " ++ render_type (d_ret d) ++ " ")%string.

(** The text of a prototype with an underscore put before its name. *)
Definition underscored (ls : list string) (k : nat) : list string :=
  match ls with
  | [] => []
  | l :: ls' => insert_at k "_" l :: ls'
  end.

(** The four handle-discipline tags. *)
Definition handle_use : string := "handle_use".
Definition handle_release : string := "handle_release".
Definition handle_release_always : string := "handle_release_always".
Definition handle_acquire : string := "handle_acquire".

Definition handle_tags : list string :=
  [handle_use; handle_release_always; handle_release; handle_acquire].

(** The tags of the header that are not handle-discipline tags, each with
    the prototypes and the parameter that carry it. *)
Definition other_tags : list (string * (list string * string)) :=
  [ ("features", (["zx_system_get_features"; "_zx_system_get_features"], "features"));
    ("pager", (["zx_pager_create"; "_zx_pager_create"], "out_pager"));
    ("out_pager_vmo", (["zx_pager_create_vmo"; "_zx_pager_create_vmo"], "out_pager_vmo")) ].

(** The prototypes that return [void] without being [__NO_RETURN]. *)
Definition void_returning : list string :=
  ["zx_cprng_draw"; "_zx_cprng_draw"].

(** The prototypes that carry [__CONST]. *)
Definition const_functions : list string :=
  [ "zx_ticks_per_second"; "_zx_ticks_per_second";
    "zx_system_get_dcache_line_size"; "_zx_system_get_dcache_line_size";
    "zx_system_get_num_cpus"; "_zx_system_get_num_cpus" ].

(** The three comment lines that open the header, without their [//]. *)
Definition header_comments : list string :=
  [ " Copyright 2018 The Fuchsia Authors. All rights reserved.";
    " This is a GENERATED file, see //zircon/system/host/abigen.";
    " The license governing this file can be found in the LICENSE file." ].

(** ** Some prototypes of the header *)

(** Lines 5 and 6. *)
Definition zx_clock_get : decl :=
  Decl (scalar "zx_time_t") "zx_clock_get"
    [Param None (scalar "zx_clock_t") "clock_id"] [LEAF_FN].

(** Lines 37 and 38. *)
Definition zx_ticks_per_second : decl :=
  Decl (scalar "zx_ticks_t") "zx_ticks_per_second" [] [LEAF_FN; CONST].

(** Lines 85 to 87. *)
Definition zx_system_get_features : decl :=
  Decl zx_status_t "zx_system_get_features"
    [ Param None (scalar "uint32_t") "kind";
      Param (Some "features") (pointer_to "uint32_t") "features" ]
    [NONNULL [2]; LEAF_FN].

(** Lines 117 to 120. *)
Definition zx_handle_duplicate : decl :=
  Decl zx_status_t "zx_handle_duplicate"
    [ Param (Some handle_use) zx_handle_t "handle";
      Param None (scalar "zx_rights_t") "rights";
      Param (Some handle_acquire) (pointer_to "zx_handle_t") "out" ]
    [NONNULL [3]; LEAF_FN].

(** Lines 275 to 278. *)
Definition zx_channel_create : decl :=
  Decl zx_status_t "zx_channel_create"
    [ Param None (scalar "uint32_t") "options";
      Param (Some handle_acquire) (pointer_to "zx_handle_t") "out0";
      Param (Some handle_acquire) (pointer_to "zx_handle_t") "out1" ]
    [NONNULL [2; 3]; LEAF_FN].

(** Lines 991 to 993. *)
Definition zx_cprng_draw : decl :=
  Decl void_t "zx_cprng_draw"
    [ Param None (pointer_to "void") "buffer";
      Param None (scalar "size_t") "buffer_size" ]
    [LEAF_FN].

(** ** The properties, one prototype at a time *)

(** Every tag of the prototype is a handle-discipline tag. *)
Definition only_handle_tags (d : decl) : Prop :=
  forall p t, In p (d_params d) -> p_attr p = Some t -> In t handle_tags.

(** Every tag of the prototype is a handle-discipline tag, or one of
    [other_tags] on the parameter and in the prototypes listed there. *)
Definition known_tags (d : decl) : Prop :=
  forall p t, In p (d_params d) -> p_attr p = Some t ->
    In t handle_tags \/
    exists fs, In (t, (fs, p_name p)) other_tags /\ In (d_name d) fs.

(** The return type is a status, a raw value or [void]. *)
Definition return_type_ok (d : decl) : Prop :=
  d_ret d = zx_status_t \/ In (d_ret d) raw_value_types \/ d_ret d = void_t.

(** The return type is as above, and [void] only with [__NO_RETURN]. *)
Definition void_only_no_return (d : decl) : Prop :=
  return_type_ok d /\ (d_ret d = void_t -> In NO_RETURN (d_attrs d)).

(** The return type is as above, [__NO_RETURN] prototypes return [void],
    and [void] comes with [__NO_RETURN] or in [void_returning]. *)
Definition void_no_return_or_listed (d : decl) : Prop :=
  return_type_ok d /\
  (In NO_RETURN (d_attrs d) -> d_ret d = void_t) /\
  (d_ret d = void_t ->
   In NO_RETURN (d_attrs d) \/ In (d_name d) void_returning).

(** Borrowed and consumed handles are [zx_handle_t] values, produced
    handles are returned through a [zx_handle_t*]; so among the parameters
    with a handle-discipline tag the pointers are the produced handles. *)
Definition handle_types_ok (d : decl) : Prop :=
  forall p t, In p (d_params d) -> p_attr p = Some t ->
    (In t [handle_use; handle_release; handle_release_always] ->
     p_type p = zx_handle_t) /\
    (t = handle_acquire -> p_type p = pointer_to "zx_handle_t") /\
    (In t handle_tags -> (ty_ptr (p_type p) = true <-> t = handle_acquire)).

(** Every [__NONNULL] position designates a pointer parameter. *)
Definition nonnull_ok (d : decl) : Prop :=
  forall i, In i (nonnull d) ->
    1 <= i <= List.length (d_params d) /\
    exists p, param_at d i = Some p /\ ty_ptr (p_type p) = true.

(** [__LEAF_FN] everywhere; [__CONST] only without parameters, with a raw
    value returned, in [const_functions]. *)
Definition leaf_const_ok (d : decl) : Prop :=
  In LEAF_FN (d_attrs d) /\
  (In CONST (d_attrs d) ->
   d_params d = [] /\ In (d_ret d) raw_value_types /\
   In (d_name d) const_functions).

(** ** Deciding the properties *)

Definition ctype_eq_dec (a b : ctype) : {a = b} + {a <> b}.
Proof. decide equality; solve [apply Bool.bool_dec | apply string_dec]. Defined.

Definition option_eq_dec {A : Type} (dec : forall x y : A, {x = y} + {x <> y})
  (a b : option A) : {a = b} + {a <> b}.
Proof. decide equality. Defined.

Definition param_eq_dec (a b : param) : {a = b} + {a <> b}.
Proof.
  decide equality;
    solve [apply string_dec | apply ctype_eq_dec | apply option_eq_dec, string_dec].
Defined.

Definition attr_eq_dec (a b : attr) : {a = b} + {a <> b}.
Proof.
  decide equality;
    solve [apply string_dec | apply option_eq_dec, list_eq_dec, Nat.eq_dec].
Defined.

Definition decl_eq_dec (a b : decl) : {a = b} + {a <> b}.
Proof.
  decide equality;
    solve [apply string_dec | apply ctype_eq_dec
          | apply list_eq_dec, param_eq_dec | apply list_eq_dec, attr_eq_dec].
Defined.

(** A decision as a boolean. *)
Definition holds {P : Prop} (x : {P} + {~ P}) : bool :=
  if x then true else false.

Definition mem {A : Type} (dec : forall x y : A, {x = y} + {x <> y})
  (x : A) (l : list A) : bool := holds (in_dec dec x l).

Definition other_tag_eq_dec (a b : string * (list string * string))
  : {a = b} + {a <> b}.
Proof.
  repeat decide equality.
Defined.

Definition check_tag (d : decl) (p : param) : bool :=
  match p_attr p with
  | None => true
  | Some t =>
      mem string_dec t handle_tags ||
      existsb (fun o =>
        String.eqb (fst o) t && String.eqb (snd (snd o)) (p_name p) &&
        mem string_dec (d_name d) (fst (snd o))) other_tags
  end.

Definition check_known_tags (d : decl) : bool :=
  forallb (check_tag d) (d_params d).

Definition check_return_type (d : decl) : bool :=
  holds (ctype_eq_dec (d_ret d) zx_status_t) ||
  mem ctype_eq_dec (d_ret d) raw_value_types ||
  holds (ctype_eq_dec (d_ret d) void_t).

Definition check_void (d : decl) : bool :=
  check_return_type d &&
  implb (mem attr_eq_dec NO_RETURN (d_attrs d))
        (holds (ctype_eq_dec (d_ret d) void_t)) &&
  implb (holds (ctype_eq_dec (d_ret d) void_t))
        (mem attr_eq_dec NO_RETURN (d_attrs d) ||
         mem string_dec (d_name d) void_returning).

Definition check_handle_type (p : param) : bool :=
  match p_attr p with
  | None => true
  | Some t =>
      implb (mem string_dec t [handle_use; handle_release; handle_release_always])
            (holds (ctype_eq_dec (p_type p) zx_handle_t)) &&
      implb (holds (string_dec t handle_acquire))
            (holds (ctype_eq_dec (p_type p) (pointer_to "zx_handle_t")))
  end.

Definition check_handle_types (d : decl) : bool :=
  forallb check_handle_type (d_params d).

Definition check_nonnull (d : decl) : bool :=
  forallb (fun i =>
    (1 <=? i)%nat && (i <=? List.length (d_params d))%nat &&
    match param_at d i with
    | Some p => ty_ptr (p_type p)
    | None => false
    end) (nonnull d).

Definition check_leaf_const (d : decl) : bool :=
  mem attr_eq_dec LEAF_FN (d_attrs d) &&
  implb (mem attr_eq_dec CONST (d_attrs d))
        (holds (list_eq_dec param_eq_dec (d_params d) []) &&
         mem ctype_eq_dec (d_ret d) raw_value_types &&
         mem string_dec (d_name d) const_functions).

(** The table is a sequence of pairs, a public prototype and then its
    private twin. *)
Fixpoint adjacent_pairs (l : list decl) : bool :=
  match l with
  | [] => true
  | d :: d' :: l' =>
      is_public d && holds (decl_eq_dec d' (private_of d)) && adjacent_pairs l'
  | [_] => false
  end.

(** Whatever is named as the private twin of [d] in [l] is its twin. *)
Definition check_twins (l : list decl) (d : decl) : bool :=
  forallb (fun d' =>
    implb (String.eqb (d_name d') (private_name (d_name d)))
          (holds (decl_eq_dec d' (private_of d)))) l.

(** No line has a brace or an equals sign: no body, no initialiser. *)
Definition plain_char (c : ascii) : bool :=
  negb (Ascii.eqb c "{" || Ascii.eqb c "}" || Ascii.eqb c "=").

Fixpoint all_chars (f : ascii -> bool) (s : string) : bool :=
  match s with
  | EmptyString => true
  | String c s' => f c && all_chars f s'
  end.

(** A prototype line by line, followed by the blank line after it. *)
Definition render_entry (d : decl) : list string :=
  render_decl d ++ [EmptyString].

(** ** Further properties of the table *)

(** Lines 253 to 257: a handle returned through a pointer without a tag. *)
Definition zx_object_get_child : decl :=
  Decl zx_status_t "zx_object_get_child"
    [ Param (Some handle_use) zx_handle_t "handle";
      Param None (scalar "uint64_t") "koid";
      Param None (scalar "zx_rights_t") "rights";
      Param None (pointer_to "zx_handle_t") "out" ]
    [NONNULL [4]; LEAF_FN].

(** The tagged handles have the types of [handle_types_ok], and a handle
    goes through a pointer only when it is produced: every parameter of
    type [zx_handle_t*] or [const zx_handle_t*] is tagged
    [handle_acquire]. *)
Definition only_acquired_through_pointers (d : decl) : Prop :=
  handle_types_ok d /\
  forall p, In p (d_params d) ->
    ty_base (p_type p) = "zx_handle_t" -> ty_ptr (p_type p) = true ->
    p_attr p = Some handle_acquire.

(** Lines 1071 to 1075. *)
Definition zx_futex_wake_handle_close_thread_exit : decl :=
  Decl void_t "zx_futex_wake_handle_close_thread_exit"
    [ Param None (CType true "zx_futex_t" true) "value_ptr";
      Param None (scalar "uint32_t") "count";
      Param None (scalar "int32_t") "new_value";
      Param (Some handle_release) zx_handle_t "handle" ]
    [LEAF_FN; NO_RETURN].

(** Lines 1809 to 1817: the prototype with the most parameters. *)
Definition zx_syscall_test_8 : decl :=
  Decl zx_status_t "zx_syscall_test_8"
    [ Param None (scalar "int") "a"; Param None (scalar "int") "b";
      Param None (scalar "int") "c"; Param None (scalar "int") "d";
      Param None (scalar "int") "e"; Param None (scalar "int") "f";
      Param None (scalar "int") "g"; Param None (scalar "int") "h" ]
    [LEAF_FN].

(** The most arguments a system call takes. *)
Definition max_params : nat := 8.

(** The attributes of a prototype have one of four shapes. *)
Definition attrs_shape (d : decl) : Prop :=
  d_attrs d = [LEAF_FN] \/
  d_attrs d = [LEAF_FN; NO_RETURN] \/
  d_attrs d = [LEAF_FN; CONST] \/
  (nonnull d <> [] /\ d_attrs d = [NONNULL (nonnull d); LEAF_FN]).

(** A parameter that carries a tag and is a pointer. *)
Definition tagged_pointer (p : param) : bool :=
  match p_attr p with
  | Some _ => ty_ptr (p_type p)
  | None => false
  end.

(** Every tagged pointer parameter is listed in [__NONNULL]. *)
Definition tagged_pointers_nonnull (d : decl) : Prop :=
  forall i p, param_at d i = Some p -> tagged_pointer p = true ->
    In i (nonnull d).

(** The [__NONNULL] parameters point to data the call may write. *)
Definition nonnull_writable (d : decl) : Prop :=
  forall i p, In i (nonnull d) -> param_at d i = Some p ->
    ty_const (p_type p) = false.

(** [const] only qualifies what a pointer points to, nothing of type [void]
    is passed by value, and the result is a plain value. *)
Definition types_plain (d : decl) : Prop :=
  ty_const (d_ret d) = false /\ ty_ptr (d_ret d) = false /\
  forall p, In p (d_params d) ->
    (ty_const (p_type p) = true -> ty_ptr (p_type p) = true) /\
    (ty_base (p_type p) = "void" -> ty_ptr (p_type p) = true).

(** A handle passed by value says what the call does with it. *)
Definition handles_tagged (d : decl) : Prop :=
  forall p, In p (d_params d) -> p_type p = zx_handle_t ->
    exists t, p_attr p = Some t /\
              In t [handle_use; handle_release; handle_release_always].

(** A call that does not return has no output: its pointers are [const]
    and it produces no handle. *)
Definition no_return_no_output (d : decl) : Prop :=
  In NO_RETURN (d_attrs d) ->
  forall p, In p (d_params d) ->
    (ty_ptr (p_type p) = true -> ty_const (p_type p) = true) /\
    p_attr p <> Some handle_acquire.

Fixpoint distinct (l : list string) : bool :=
  match l with
  | [] => true
  | x :: l' => negb (mem string_dec x l') && distinct l'
  end.

Fixpoint increasing (l : list nat) : bool :=
  match l with
  | [] => true
  | a :: l' =>
      match l' with
      | [] => true
      | b :: _ => (a <? b)%nat && increasing l'
      end
  end.

Definition check_attrs_shape (d : decl) : bool :=
  holds (list_eq_dec attr_eq_dec (d_attrs d) [LEAF_FN]) ||
  holds (list_eq_dec attr_eq_dec (d_attrs d) [LEAF_FN; NO_RETURN]) ||
  holds (list_eq_dec attr_eq_dec (d_attrs d) [LEAF_FN; CONST]) ||
  (negb (holds (list_eq_dec Nat.eq_dec (nonnull d) [])) &&
   holds (list_eq_dec attr_eq_dec (d_attrs d) [NONNULL (nonnull d); LEAF_FN])).

(** The tagged pointers among [ps], the first of which is at position [k],
    have their position in [nn]. *)
Fixpoint check_tagged_from (k : nat) (ps : list param) (nn : list nat) : bool :=
  match ps with
  | [] => true
  | p :: ps' =>
      implb (tagged_pointer p) (mem Nat.eq_dec k nn) &&
      check_tagged_from (S k) ps' nn
  end.

Definition check_tagged_pointers (d : decl) : bool :=
  check_tagged_from 1 (d_params d) (nonnull d).

Definition check_nonnull_writable (d : decl) : bool :=
  forallb (fun i =>
    match param_at d i with
    | Some p => negb (ty_const (p_type p))
    | None => true
    end) (nonnull d).

Definition check_types_plain (d : decl) : bool :=
  negb (ty_const (d_ret d)) && negb (ty_ptr (d_ret d)) &&
  forallb (fun p =>
    implb (ty_const (p_type p)) (ty_ptr (p_type p)) &&
    implb (String.eqb (ty_base (p_type p)) "void") (ty_ptr (p_type p)))
    (d_params d).

Definition check_handles_tagged (d : decl) : bool :=
  forallb (fun p =>
    implb (holds (ctype_eq_dec (p_type p) zx_handle_t))
      match p_attr p with
      | Some t =>
          mem string_dec t [handle_use; handle_release; handle_release_always]
      | None => false
      end) (d_params d).

Definition check_no_return (d : decl) : bool :=
  implb (mem attr_eq_dec NO_RETURN (d_attrs d))
    (forallb (fun p =>
       implb (ty_ptr (p_type p)) (ty_const (p_type p)) &&
       negb (holds (option_eq_dec string_dec (p_attr p) (Some handle_acquire))))
       (d_params d)).

(** * Proofs *)

(** ** The header text and the declaration table *)

(** Reading the header succeeds and gives [header_items]. *)
Lemma parse_definitions_h : parse_header definitions_h = Some header_items.
Proof. vm_compute. reflexivity. Qed.

(** Printing [header_items] gives the header back, character by character:
    the table keeps everything the text says. *)
Lemma render_header_items : render_header header_items = definitions_h.
Proof. vm_compute. reflexivity. Qed.

Lemma syscalls_protos : syscalls = protos header_items.
Proof. vm_compute. reflexivity. Qed.

Lemma syscalls_length : List.length syscalls = 334.
Proof. reflexivity. Qed.

(** ** Decisions *)

Lemma holds_true (P : Prop) (x : {P} + {~ P}) : holds x = true <-> P.
Proof. unfold holds. destruct x; split; intros; congruence || tauto. Qed.

Lemma mem_In (A : Type) (dec : forall x y : A, {x = y} + {x <> y}) x l :
  mem dec x l = true <-> In x l.
Proof. unfold mem. apply holds_true. Qed.

Lemma implb_true (a b : bool) : implb a b = true <-> (a = true -> b = true).
Proof. destruct a, b; simpl; intuition congruence. Qed.

Ltac bools :=
  repeat match goal with
  | H : _ && _ = true |- _ => apply andb_true_iff in H; destruct H
  | H : implb _ _ = true |- _ => rewrite implb_true in H
  | H : mem _ _ _ = true |- _ => apply mem_In in H
  | H : holds _ = true |- _ => apply holds_true in H
  | H : String.eqb _ _ = true |- _ => apply String.eqb_eq in H
  end.

(** ** Strings *)

Lemma append_assoc (a b c : string) :
  ((a ++ b) ++ c = a ++ (b ++ c))%string.
Proof. induction a as [|x a IH]; simpl; [reflexivity | now rewrite IH]. Qed.

Lemma insert_at_append (p : string) (c : ascii) (s : string) :
  insert_at (String.length p) c (p ++ s)%string = (p ++ String c s)%string.
Proof.
  induction p as [|x p IH]; simpl.
  - destruct s; reflexivity.
  - now rewrite IH.
Qed.

Lemma render_extern_private (t : ctype) (n : string) :
  render_extern t (private_name n) =
  insert_at (String.length ("extern " ++ render_type t ++ " ")%string) "_"
            (render_extern t n).
Proof.
  unfold render_extern, private_name.
  assert (E : forall r, ("extern " ++ render_type t ++ " " ++ r)%string =
                        (("extern " ++ render_type t ++ " ") ++ r)%string).
  { intros r. simpl. rewrite append_assoc. reflexivity. }
  rewrite (E (n ++ "(")%string), insert_at_append, <- E. reflexivity.
Qed.

(** The text of the private twin is the text of the prototype with an
    underscore before the name, and nothing else changed. *)
Lemma render_private_of (d : decl) :
  render_decl (private_of d) = underscored (render_decl d) (name_column d).
Proof.
  unfold render_decl, underscored, name_column, private_of; simpl.
  now rewrite render_extern_private.
Qed.

Lemma private_not_public (d : decl) : is_public (private_of d) = false.
Proof. reflexivity. Qed.

(** ** Pairs *)

Lemma list_pair_ind (A : Type) (P : list A -> Prop) :
  P [] -> (forall a, P [a]) -> (forall a b l, P l -> P (a :: b :: l)) ->
  forall l, P l.
Proof.
  intros H0 H1 H2. fix IH 1. intros [|a [|b l]].
  - exact H0.
  - apply H1.
  - apply H2, IH.
Qed.

(** In a table of adjacent pairs, a public prototype is followed by its
    twin, and any other prototype is the twin of the one before it. *)
Lemma adjacent_pairs_spec (l : list decl) :
  adjacent_pairs l = true ->
  forall i d, nth_error l i = Some d ->
    (is_public d = true -> nth_error l (S i) = Some (private_of d)) /\
    (is_public d = false ->
     exists j d0, i = S j /\ nth_error l j = Some d0 /\
                  is_public d0 = true /\ d = private_of d0).
Proof.
  induction l as [| a | a b l IH] using list_pair_ind; simpl; intros H i d Hi.
  - destruct i; discriminate.
  - discriminate.
  - bools; subst b.
    destruct i as [|[|i]]; simpl in Hi.
    + injection Hi as <-. split; [reflexivity | congruence].
    + injection Hi as <-. split.
      * rewrite private_not_public. discriminate.
      * intros _. exists 0, a. auto.
    + destruct (IH H0 i d Hi) as [Hpub Hpriv]. split.
      * exact Hpub.
      * intros Hd. destruct (Hpriv Hd) as (j & d0 & -> & Hj & Hp & ->).
        exists (S (S j)), d0. auto.
Qed.

Lemma syscalls_adjacent : adjacent_pairs syscalls = true.
Proof. vm_compute. reflexivity. Qed.

Lemma syscalls_twins : forallb (check_twins syscalls) syscalls = true.
Proof. vm_compute. reflexivity. Qed.

(** A prototype of the table named as the private twin of another one is
    that twin. *)
Lemma twin_by_name (d d' : decl) :
  In d syscalls -> In d' syscalls ->
  d_name d' = private_name (d_name d) -> d' = private_of d.
Proof.
  intros Hd Hd' Hn.
  pose proof (proj1 (forallb_forall _ _) syscalls_twins d Hd) as H.
  unfold check_twins in H.
  pose proof (proj1 (forallb_forall _ _) H d' Hd') as H'.
  cbv beta in H'. bools.
  apply (holds_true _ (decl_eq_dec d' (private_of d))).
  apply H'. now apply String.eqb_eq.
Qed.

(** The twin of a public prototype of the table is in the table. *)
Lemma twin_declared (d : decl) :
  In d syscalls -> is_public d = true -> In (private_of d) syscalls.
Proof.
  intros Hd Hp. apply In_nth_error in Hd as [i Hi].
  apply nth_error_In with (n := S i).
  now apply (adjacent_pairs_spec syscalls syscalls_adjacent i d Hi).
Qed.

(** ** Soundness of the checks *)

Lemma check_known_tags_sound (d : decl) :
  check_known_tags d = true -> known_tags d.
Proof.
  unfold check_known_tags, known_tags. intros H p t Hp Ht.
  pose proof (proj1 (forallb_forall _ _) H p Hp) as Hc.
  unfold check_tag in Hc. rewrite Ht in Hc.
  apply orb_true_iff in Hc as [Hc | Hc].
  - left. now apply mem_In in Hc.
  - right. apply existsb_exists in Hc as ([t' [fs pn]] & Ho & Hc).
    simpl in Hc. bools. subst. exists fs. auto.
Qed.

Lemma check_return_type_sound (d : decl) :
  check_return_type d = true -> return_type_ok d.
Proof.
  unfold check_return_type, return_type_ok. intros H.
  apply orb_true_iff in H as [H | H]; [apply orb_true_iff in H as [H | H] |].
  - left. now apply holds_true in H.
  - right; left. now apply mem_In in H.
  - right; right. now apply holds_true in H.
Qed.

Lemma check_void_sound (d : decl) :
  check_void d = true -> void_no_return_or_listed d.
Proof.
  unfold check_void, void_no_return_or_listed. intros H. bools.
  split; [now apply check_return_type_sound |]. split.
  - intros Hn. apply (holds_true _ (ctype_eq_dec (d_ret d) void_t)).
    apply H1. now apply mem_In.
  - intros Hv.
    assert (Hc : holds (ctype_eq_dec (d_ret d) void_t) = true)
      by now apply holds_true.
    apply H0 in Hc. apply orb_true_iff in Hc as [Hc | Hc]; bools; auto.
Qed.

Lemma check_handle_types_sound (d : decl) :
  check_handle_types d = true -> handle_types_ok d.
Proof.
  unfold check_handle_types, handle_types_ok. intros H p t Hp Ht.
  pose proof (proj1 (forallb_forall _ _) H p Hp) as Hc.
  unfold check_handle_type in Hc. rewrite Ht in Hc. bools.
  assert (Hval : In t [handle_use; handle_release; handle_release_always] ->
                 p_type p = zx_handle_t).
  { intros Hin. apply (holds_true _ (ctype_eq_dec (p_type p) zx_handle_t)).
    apply H0. now apply mem_In. }
  assert (Hptr : t = handle_acquire -> p_type p = pointer_to "zx_handle_t").
  { intros He.
    apply (holds_true _ (ctype_eq_dec (p_type p) (pointer_to "zx_handle_t"))).
    apply H1. now apply holds_true. }
  split; [exact Hval | split; [exact Hptr |]].
  intros Hin. split.
  - intros Hty.
    destruct Hin as [<- | [<- | [<- | [<- | []]]]]; try reflexivity;
      rewrite Hval in Hty by (simpl; auto); discriminate.
  - intros He. now rewrite (Hptr He).
Qed.

Lemma check_nonnull_sound (d : decl) :
  check_nonnull d = true -> nonnull_ok d.
Proof.
  unfold check_nonnull, nonnull_ok. intros H i Hi.
  pose proof (proj1 (forallb_forall _ _) H i Hi) as Hc. cbv beta in Hc.
  bools. apply Nat.leb_le in H0, H2. split; [lia |].
  destruct (param_at d i) as [p |]; [| discriminate].
  exists p. auto.
Qed.

Lemma check_leaf_const_sound (d : decl) :
  check_leaf_const d = true -> leaf_const_ok d.
Proof.
  unfold check_leaf_const, leaf_const_ok. intros H. bools.
  split; [assumption |]. intros Hc.
  apply (mem_In _ attr_eq_dec) in Hc. apply H0 in Hc. bools. auto.
Qed.

Lemma syscalls_known_tags : forallb check_known_tags syscalls = true.
Proof. vm_compute. reflexivity. Qed.

Lemma syscalls_void : forallb check_void syscalls = true.
Proof. vm_compute. reflexivity. Qed.

Lemma syscalls_handle_types : forallb check_handle_types syscalls = true.
Proof. vm_compute. reflexivity. Qed.

Lemma syscalls_nonnull : forallb check_nonnull syscalls = true.
Proof. vm_compute. reflexivity. Qed.

Lemma syscalls_leaf_const : forallb check_leaf_const syscalls = true.
Proof. vm_compute. reflexivity. Qed.

(** * The properties of the header *)

(** C1. Every public prototype [zx_NAME] of the header has its private twin
    [_zx_NAME] in the header, and whatever the header declares under the
    name [_zx_NAME] has the return type, the parameters with their tags, and
    the attributes of [zx_NAME]; its text is the text of [zx_NAME] with one
    underscore put before the name, and is otherwise the same character for
    character. *)
Theorem public_private_symmetry (d : decl) :
  In d syscalls -> is_public d = true ->
  In (private_of d) syscalls /\
  (forall d', In d' syscalls -> d_name d' = private_name (d_name d) ->
     d' = private_of d) /\
  render_decl (private_of d) = underscored (render_decl d) (name_column d).
Proof.
  intros Hd Hp. split; [| split].
  - now apply twin_declared.
  - intros d' Hd' Hn. now apply twin_by_name.
  - apply render_private_of.
Qed.

Lemma public_private_symmetry_witness :
  In zx_clock_get syscalls /\ is_public zx_clock_get = true /\
  In (private_of zx_clock_get) syscalls /\
  (forall d', In d' syscalls ->
     d_name d' = private_name (d_name zx_clock_get) ->
     d' = private_of zx_clock_get) /\
  render_decl (private_of zx_clock_get) =
  underscored (render_decl zx_clock_get) (name_column zx_clock_get).
Proof.
  assert (Hin : In zx_clock_get syscalls)
    by (apply (nth_error_In syscalls 0); reflexivity).
  split; [exact Hin | split; [reflexivity |]].
  apply (public_private_symmetry zx_clock_get Hin). reflexivity.
Defined.

(** C2, as stated, fails: the second parameter of [zx_system_get_features]
    carries the tag [features], which is none of the four handle-discipline
    tags. *)
Lemma features_tag_counterexample :
  In zx_system_get_features syscalls /\
  ~ only_handle_tags zx_system_get_features.
Proof.
  split.
  - apply (nth_error_In syscalls 24). reflexivity.
  - intros H.
    specialize (H (Param (Some "features") (pointer_to "uint32_t") "features")
                  "features" (or_intror (or_introl eq_refl)) eq_refl).
    simpl in H. intuition discriminate.
Qed.

(** C2, amended. Every [ZX_SYSCALL_PARAM_ATTR] tag of the header is one of
    the four handle-discipline tags [handle_use], [handle_release_always],
    [handle_release] and [handle_acquire], or one of the three tags
    [features], [pager] and [out_pager_vmo], which appear only on the output
    parameter of [zx_system_get_features], [zx_pager_create] and
    [zx_pager_create_vmo] and of their private twins. *)
Theorem parameter_tags_known (d : decl) :
  In d syscalls -> known_tags d.
Proof.
  intros Hd. apply check_known_tags_sound.
  exact (proj1 (forallb_forall _ _) syscalls_known_tags d Hd).
Qed.

Lemma parameter_tags_known_witness :
  In zx_system_get_features syscalls /\ known_tags zx_system_get_features.
Proof.
  assert (Hin : In zx_system_get_features syscalls)
    by (apply (nth_error_In syscalls 24); reflexivity).
  split; [exact Hin | exact (parameter_tags_known zx_system_get_features Hin)].
Defined.

(** C3, as stated, fails: [zx_cprng_draw] returns [void] and is not
    [__NO_RETURN]. *)
Lemma cprng_draw_counterexample :
  In zx_cprng_draw syscalls /\ ~ void_only_no_return zx_cprng_draw.
Proof.
  split.
  - apply (nth_error_In syscalls 186). reflexivity.
  - intros [_ H]. specialize (H eq_refl). simpl in H.
    destruct H as [H | []]. discriminate.
Qed.

(** C3, amended. The return type of every prototype is [zx_status_t], or a
    raw value ([zx_time_t], [zx_ticks_t], [uint32_t], [uint64_t]), or
    [void]; every [__NO_RETURN] prototype returns [void]; and a prototype
    that returns [void] is [__NO_RETURN] or is [zx_cprng_draw] or
    [_zx_cprng_draw]. *)
Theorem return_types (d : decl) :
  In d syscalls -> void_no_return_or_listed d.
Proof.
  intros Hd. apply check_void_sound.
  exact (proj1 (forallb_forall _ _) syscalls_void d Hd).
Qed.

Lemma return_types_witness :
  In zx_cprng_draw syscalls /\ void_no_return_or_listed zx_cprng_draw.
Proof.
  assert (Hin : In zx_cprng_draw syscalls)
    by (apply (nth_error_In syscalls 186); reflexivity).
  split; [exact Hin | exact (return_types zx_cprng_draw Hin)].
Defined.

(** C4. For every pair of a prototype and the prototype declared under its
    name with a leading underscore, the [__NONNULL] positions are the same
    list, and each position designates the same parameter in both. *)
Theorem nonnull_consistent (d d' : decl) :
  In d syscalls -> In d' syscalls ->
  d_name d' = private_name (d_name d) ->
  nonnull d' = nonnull d /\
  forall i, In i (nonnull d) -> param_at d' i = param_at d i.
Proof.
  intros Hd Hd' Hn. rewrite (twin_by_name d d' Hd Hd' Hn).
  split; [reflexivity | intros [| k] _; reflexivity].
Qed.

Lemma nonnull_consistent_witness :
  In zx_channel_create syscalls /\
  In (private_of zx_channel_create) syscalls /\
  d_name (private_of zx_channel_create) =
    private_name (d_name zx_channel_create) /\
  nonnull (private_of zx_channel_create) = nonnull zx_channel_create /\
  forall i, In i (nonnull zx_channel_create) ->
    param_at (private_of zx_channel_create) i = param_at zx_channel_create i.
Proof.
  assert (Hin : In zx_channel_create syscalls)
    by (apply (nth_error_In syscalls 60); reflexivity).
  assert (Hin' : In (private_of zx_channel_create) syscalls)
    by (apply (nth_error_In syscalls 61); reflexivity).
  split; [exact Hin | split; [exact Hin' | split; [reflexivity |]]].
  exact (nonnull_consistent zx_channel_create (private_of zx_channel_create)
           Hin Hin' eq_refl).
Defined.

(** C5. The header is three comment lines, a blank line, and then one
    prototype [extern type name(params) attributes;] after the other, each
    followed by a blank line: reading it gives comments, blank lines and
    prototypes only, printing them gives the header back, and no line has a
    brace or an equals sign, so there is no body and no initialiser. *)
Theorem header_is_prototypes :
  parse_header definitions_h = Some header_items /\
  header_items =
    map Comment header_comments ++
    Blank :: flat_map (fun d => [Proto d; Blank]) syscalls /\
  definitions_h =
    map (append "//") header_comments ++
    EmptyString :: flat_map render_entry syscalls /\
  forallb (all_chars plain_char) definitions_h = true.
Proof.
  split; [exact parse_definitions_h |].
  split; [vm_compute; reflexivity |].
  split; vm_compute; reflexivity.
Qed.

(** C6, as stated, fails: the last parameter of [zx_object_get_child] is a
    [zx_handle_t* out] without a tag, a handle returned through a pointer
    that is not tagged [handle_acquire]. *)
Lemma object_get_child_counterexample :
  In zx_object_get_child syscalls /\
  ~ only_acquired_through_pointers zx_object_get_child.
Proof.
  split.
  - apply (nth_error_In syscalls 56). reflexivity.
  - intros [_ H].
    specialize (H (Param None (pointer_to "zx_handle_t") "out")).
    assert (Hn : @None string = Some handle_acquire).
    { apply H; [simpl; tauto | reflexivity | reflexivity]. }
    discriminate Hn.
Qed.

(** C6, amended. Every parameter tagged [handle_use], [handle_release] or
    [handle_release_always] has the type [zx_handle_t], passed by value, and
    every parameter tagged [handle_acquire] has the type [zx_handle_t*]; so
    a parameter with a handle-discipline tag is a pointer exactly when the
    tag is [handle_acquire]. *)
Theorem handle_parameter_types (d : decl) :
  In d syscalls -> handle_types_ok d.
Proof.
  intros Hd. apply check_handle_types_sound.
  exact (proj1 (forallb_forall _ _) syscalls_handle_types d Hd).
Qed.

Lemma handle_parameter_types_witness :
  In zx_handle_duplicate syscalls /\ handle_types_ok zx_handle_duplicate.
Proof.
  assert (Hin : In zx_handle_duplicate syscalls)
    by (apply (nth_error_In syscalls 32); reflexivity).
  split; [exact Hin | exact (handle_parameter_types zx_handle_duplicate Hin)].
Defined.

(** C7. Every position listed in a [__NONNULL] attribute is at least 1 and
    at most the number of parameters of its prototype, and the parameter at
    that position has a pointer type. *)
Theorem nonnull_designates_pointers (d : decl) :
  In d syscalls -> nonnull_ok d.
Proof.
  intros Hd. apply check_nonnull_sound.
  exact (proj1 (forallb_forall _ _) syscalls_nonnull d Hd).
Qed.

Lemma nonnull_designates_pointers_witness :
  In zx_channel_create syscalls /\ nonnull_ok zx_channel_create.
Proof.
  assert (Hin : In zx_channel_create syscalls)
    by (apply (nth_error_In syscalls 60); reflexivity).
  split; [exact Hin | exact (nonnull_designates_pointers zx_channel_create Hin)].
Defined.

(** C8. The prototypes come in adjacent pairs, in this order: a public
    prototype is immediately followed by its private twin, and every other
    prototype is the private twin of the public prototype immediately
    before it. *)
Theorem declarations_adjacent (i : nat) (d : decl) :
  nth_error syscalls i = Some d ->
  (is_public d = true -> nth_error syscalls (S i) = Some (private_of d)) /\
  (is_public d = false ->
   exists j d0, i = S j /\ nth_error syscalls j = Some d0 /\
                is_public d0 = true /\ d = private_of d0).
Proof.
  apply adjacent_pairs_spec. exact syscalls_adjacent.
Qed.

Lemma declarations_adjacent_witness :
  nth_error syscalls 0 = Some zx_clock_get /\
  (is_public zx_clock_get = true ->
   nth_error syscalls 1 = Some (private_of zx_clock_get)) /\
  (is_public zx_clock_get = false ->
   exists j d0, 0 = S j /\ nth_error syscalls j = Some d0 /\
                is_public d0 = true /\ zx_clock_get = private_of d0).
Proof.
  split; [reflexivity |].
  apply (declarations_adjacent 0 zx_clock_get). reflexivity.
Defined.

(** C9. Every prototype carries [__LEAF_FN], and a prototype that carries
    [__CONST] has no parameters, returns a raw value, and is one of
    [zx_ticks_per_second], [zx_system_get_dcache_line_size],
    [zx_system_get_num_cpus] and their private twins. *)
Theorem leaf_and_const (d : decl) :
  In d syscalls -> leaf_const_ok d.
Proof.
  intros Hd. apply check_leaf_const_sound.
  exact (proj1 (forallb_forall _ _) syscalls_leaf_const d Hd).
Qed.

Lemma leaf_and_const_witness :
  In zx_ticks_per_second syscalls /\ leaf_const_ok zx_ticks_per_second.
Proof.
  assert (Hin : In zx_ticks_per_second syscalls)
    by (apply (nth_error_In syscalls 10); reflexivity).
  split; [exact Hin | exact (leaf_and_const zx_ticks_per_second Hin)].
Defined.

(** * Further properties of the table *)

Lemma distinct_NoDup (l : list string) : distinct l = true -> NoDup l.
Proof.
  induction l as [| x l IH]; simpl; intros H.
  - constructor.
  - apply andb_true_iff in H as [Hx Hl]. constructor.
    + intros Hin. apply (mem_In _ string_dec) in Hin.
      rewrite Hin in Hx. discriminate.
    + now apply IH.
Qed.

Lemma increasing_sorted (l : list nat) :
  increasing l = true -> StronglySorted lt l.
Proof.
  intros H. apply Sorted_StronglySorted.
  - intros a b c. apply Nat.lt_trans.
  - induction l as [| a l IH]; [constructor |].
    simpl in H. destruct l as [| b l].
    + repeat constructor.
    + apply andb_true_iff in H as [Hab Hl]. constructor.
      * now apply IH.
      * constructor. now apply Nat.ltb_lt.
Qed.

Lemma check_attrs_shape_sound (d : decl) :
  check_attrs_shape d = true -> attrs_shape d.
Proof.
  unfold check_attrs_shape, attrs_shape. intros H.
  repeat (apply orb_true_iff in H as [H | H]).
  - left. now apply holds_true in H.
  - right; left. now apply holds_true in H.
  - right; right; left. now apply holds_true in H.
  - right; right; right. bools. split; [| assumption].
    intros He. apply negb_true_iff in H.
    assert (Ht : holds (list_eq_dec Nat.eq_dec (nonnull d) []) = true)
      by now apply holds_true.
    congruence.
Qed.

Lemma check_tagged_from_sound (nn : list nat) (ps : list param) :
  forall k, check_tagged_from k ps nn = true ->
  forall j p, nth_error ps j = Some p -> tagged_pointer p = true ->
    In (k + j) nn.
Proof.
  induction ps as [| q ps IH]; simpl; intros k H j p Hj Hp.
  - destruct j; discriminate.
  - bools. destruct j as [| j]; simpl in Hj.
    + injection Hj as ->. rewrite Nat.add_0_r.
      apply (mem_In _ Nat.eq_dec). now apply H.
    + rewrite <- Nat.add_succ_comm. now apply (IH (S k) H0 j p).
Qed.

Lemma check_tagged_pointers_sound (d : decl) :
  check_tagged_pointers d = true -> tagged_pointers_nonnull d.
Proof.
  unfold check_tagged_pointers, tagged_pointers_nonnull. intros H i p Hi Hp.
  destruct i as [| j]; [discriminate |]. simpl in Hi.
  exact (check_tagged_from_sound _ _ 1 H j p Hi Hp).
Qed.

Lemma check_nonnull_writable_sound (d : decl) :
  check_nonnull_writable d = true -> nonnull_writable d.
Proof.
  unfold check_nonnull_writable, nonnull_writable. intros H i p Hi Hp.
  pose proof (proj1 (forallb_forall _ _) H i Hi) as Hc. cbv beta in Hc.
  rewrite Hp in Hc. now apply negb_true_iff in Hc.
Qed.

Lemma check_types_plain_sound (d : decl) :
  check_types_plain d = true -> types_plain d.
Proof.
  unfold check_types_plain, types_plain. intros H.
  apply andb_true_iff in H as [H Hps]. apply andb_true_iff in H as [Hc Hp].
  apply negb_true_iff in Hc, Hp.
  split; [assumption | split; [assumption |]].
  intros p Hin.
  pose proof (proj1 (forallb_forall _ _) Hps p Hin) as Hq. cbv beta in Hq.
  apply andb_true_iff in Hq as [Hconst Hvoid].
  rewrite implb_true in Hconst, Hvoid. split; [assumption |].
  intros Hv. apply Hvoid. now apply String.eqb_eq.
Qed.

Lemma check_handles_tagged_sound (d : decl) :
  check_handles_tagged d = true -> handles_tagged d.
Proof.
  unfold check_handles_tagged, handles_tagged. intros H p Hp Hty.
  pose proof (proj1 (forallb_forall _ _) H p Hp) as Hc. cbv beta in Hc.
  bools.
  assert (Ht : holds (ctype_eq_dec (p_type p) zx_handle_t) = true)
    by now apply holds_true.
  apply Hc in Ht. destruct (p_attr p) as [t |]; [| discriminate].
  exists t. split; [reflexivity | now apply (mem_In _ string_dec)].
Qed.

Lemma check_no_return_sound (d : decl) :
  check_no_return d = true -> no_return_no_output d.
Proof.
  unfold check_no_return, no_return_no_output. intros H Hn p Hp.
  bools. apply (mem_In _ attr_eq_dec) in Hn. apply H in Hn.
  pose proof (proj1 (forallb_forall _ _) Hn p Hp) as Hc. cbv beta in Hc.
  bools. split; [assumption |].
  intros He. apply negb_true_iff in H1.
  assert (Ht : holds (option_eq_dec string_dec (p_attr p) (Some handle_acquire))
               = true) by now apply holds_true.
  congruence.
Qed.

(** X1. No name is declared twice in the header. *)
Theorem names_unique : NoDup (map d_name syscalls).
Proof. apply distinct_NoDup. vm_compute. reflexivity. Qed.

(** X2. The parameters of a prototype have different names. *)
Theorem parameter_names_distinct (d : decl) :
  In d syscalls -> NoDup (map p_name (d_params d)).
Proof.
  intros Hd. apply distinct_NoDup.
  assert (H : forallb (fun d => distinct (map p_name (d_params d))) syscalls
              = true) by (vm_compute; reflexivity).
  exact (proj1 (forallb_forall _ _) H d Hd).
Qed.

Lemma parameter_names_distinct_witness :
  In zx_channel_create syscalls /\
  NoDup (map p_name (d_params zx_channel_create)).
Proof.
  assert (Hin : In zx_channel_create syscalls)
    by (apply (nth_error_In syscalls 60); reflexivity).
  split; [exact Hin | exact (parameter_names_distinct zx_channel_create Hin)].
Defined.

(** X3. No prototype has more than eight parameters. *)
Theorem at_most_eight_parameters (d : decl) :
  In d syscalls -> List.length (d_params d) <= max_params.
Proof.
  intros Hd. apply Nat.leb_le.
  assert (H : forallb (fun d => (List.length (d_params d) <=? max_params)%nat)
                syscalls = true) by (vm_compute; reflexivity).
  exact (proj1 (forallb_forall _ _) H d Hd).
Qed.

Lemma at_most_eight_parameters_witness :
  In zx_syscall_test_8 syscalls /\
  List.length (d_params zx_syscall_test_8) <= max_params.
Proof.
  assert (Hin : In zx_syscall_test_8 syscalls)
    by (apply (nth_error_In syscalls 330); reflexivity).
  split; [exact Hin | exact (at_most_eight_parameters zx_syscall_test_8 Hin)].
Defined.

(** X4. The attributes of a prototype are [__LEAF_FN] alone, [__LEAF_FN]
    followed by [__NO_RETURN] or by [__CONST], or one non-empty
    [__NONNULL] followed by [__LEAF_FN]: [__NONNULL] appears at most once
    and never with [__NO_RETURN] or [__CONST], which never appear
    together. *)
Theorem attributes_shape (d : decl) :
  In d syscalls -> attrs_shape d.
Proof.
  intros Hd. apply check_attrs_shape_sound.
  assert (H : forallb check_attrs_shape syscalls = true)
    by (vm_compute; reflexivity).
  exact (proj1 (forallb_forall _ _) H d Hd).
Qed.

Lemma attributes_shape_witness :
  In zx_channel_create syscalls /\ attrs_shape zx_channel_create.
Proof.
  assert (Hin : In zx_channel_create syscalls)
    by (apply (nth_error_In syscalls 60); reflexivity).
  split; [exact Hin | exact (attributes_shape zx_channel_create Hin)].
Defined.

(** X5. The positions of a [__NONNULL] attribute are listed in strictly
    increasing order, so none is listed twice. *)
Theorem nonnull_increasing (d : decl) :
  In d syscalls -> StronglySorted lt (nonnull d).
Proof.
  intros Hd. apply increasing_sorted.
  assert (H : forallb (fun d => increasing (nonnull d)) syscalls = true)
    by (vm_compute; reflexivity).
  exact (proj1 (forallb_forall _ _) H d Hd).
Qed.

Lemma nonnull_increasing_witness :
  In zx_channel_create syscalls /\
  StronglySorted lt (nonnull zx_channel_create).
Proof.
  assert (Hin : In zx_channel_create syscalls)
    by (apply (nth_error_In syscalls 60); reflexivity).
  split; [exact Hin | exact (nonnull_increasing zx_channel_create Hin)].
Defined.

(** X6. Every pointer parameter that carries a [ZX_SYSCALL_PARAM_ATTR] tag,
    so every [handle_acquire] parameter, is listed in the [__NONNULL]
    attribute of its prototype. *)
Theorem tagged_pointers_are_nonnull (d : decl) :
  In d syscalls -> tagged_pointers_nonnull d.
Proof.
  intros Hd. apply check_tagged_pointers_sound.
  assert (H : forallb check_tagged_pointers syscalls = true)
    by (vm_compute; reflexivity).
  exact (proj1 (forallb_forall _ _) H d Hd).
Qed.

Lemma tagged_pointers_are_nonnull_witness :
  In zx_handle_duplicate syscalls /\
  tagged_pointers_nonnull zx_handle_duplicate.
Proof.
  assert (Hin : In zx_handle_duplicate syscalls)
    by (apply (nth_error_In syscalls 32); reflexivity).
  split; [exact Hin | exact (tagged_pointers_are_nonnull zx_handle_duplicate Hin)].
Defined.

(** X7. No [__NONNULL] position designates a pointer to [const]: the
    parameters that must not be null are the ones the call writes
    through. *)
Theorem nonnull_parameters_writable (d : decl) :
  In d syscalls -> nonnull_writable d.
Proof.
  intros Hd. apply check_nonnull_writable_sound.
  assert (H : forallb check_nonnull_writable syscalls = true)
    by (vm_compute; reflexivity).
  exact (proj1 (forallb_forall _ _) H d Hd).
Qed.

Lemma nonnull_parameters_writable_witness :
  In zx_object_get_child syscalls /\ nonnull_writable zx_object_get_child.
Proof.
  assert (Hin : In zx_object_get_child syscalls)
    by (apply (nth_error_In syscalls 56); reflexivity).
  split; [exact Hin | exact (nonnull_parameters_writable zx_object_get_child Hin)].
Defined.

(** X8. Return types are never [const] and never pointers; in a parameter
    type [const] only appears on a pointer, and [void] only as [void*]. *)
Theorem types_are_plain (d : decl) :
  In d syscalls -> types_plain d.
Proof.
  intros Hd. apply check_types_plain_sound.
  assert (H : forallb check_types_plain syscalls = true)
    by (vm_compute; reflexivity).
  exact (proj1 (forallb_forall _ _) H d Hd).
Qed.

Lemma types_are_plain_witness :
  In zx_cprng_draw syscalls /\ types_plain zx_cprng_draw.
Proof.
  assert (Hin : In zx_cprng_draw syscalls)
    by (apply (nth_error_In syscalls 186); reflexivity).
  split; [exact Hin | exact (types_are_plain zx_cprng_draw Hin)].
Defined.

(** X9. Every parameter of type [zx_handle_t], a handle passed by value,
    carries one of the tags [handle_use], [handle_release] and
    [handle_release_always]: none is left without a discipline. *)
Theorem handles_by_value_tagged (d : decl) :
  In d syscalls -> handles_tagged d.
Proof.
  intros Hd. apply check_handles_tagged_sound.
  assert (H : forallb check_handles_tagged syscalls = true)
    by (vm_compute; reflexivity).
  exact (proj1 (forallb_forall _ _) H d Hd).
Qed.

Lemma handles_by_value_tagged_witness :
  In zx_object_get_child syscalls /\ handles_tagged zx_object_get_child.
Proof.
  assert (Hin : In zx_object_get_child syscalls)
    by (apply (nth_error_In syscalls 56); reflexivity).
  split; [exact Hin | exact (handles_by_value_tagged zx_object_get_child Hin)].
Defined.

(** X10. A [__NO_RETURN] prototype has no output parameter: each of its
    pointer parameters points to [const], and none of its parameters is
    tagged [handle_acquire]. *)
Theorem no_return_has_no_output (d : decl) :
  In d syscalls -> no_return_no_output d.
Proof.
  intros Hd. apply check_no_return_sound.
  assert (H : forallb check_no_return syscalls = true)
    by (vm_compute; reflexivity).
  exact (proj1 (forallb_forall _ _) H d Hd).
Qed.

Lemma no_return_has_no_output_witness :
  In zx_futex_wake_handle_close_thread_exit syscalls /\
  no_return_no_output zx_futex_wake_handle_close_thread_exit.
Proof.
  assert (Hin : In zx_futex_wake_handle_close_thread_exit syscalls)
    by (apply (nth_error_In syscalls 200); reflexivity).
  split; [exact Hin |
          exact (no_return_has_no_output
                   zx_futex_wake_handle_close_thread_exit Hin)].
Defined.
